(** * generate-icons.py: the macOS icon pipeline of Offline Cinema

    A shallow embedding of [generate-icons.py].  The script loads one source
    picture, crops it to a centred square, renders ten bitmaps, writes the
    asset-catalog manifest, asks [iconutil] for an [.icns] container and
    copies the container into the application bundle.

    The functions of the script ([crop_to_square], [create_icon],
    [generate_icns], [update_contents_json], [main], the table [ICON_SIZES])
    are transcribed statement by statement.  What they call in Pillow, [os],
    [shutil], [subprocess] and [json] is modelled in the first half of the
    file: pictures as a mode, a size and a pixel function; the disk as a
    finite map from paths to nodes; Python exceptions as an outcome type that
    is threaded, together with the disk and the console, through a small
    monad.

    The console has an encoding.  [print] raises [UnicodeEncodeError] on
    literal text that the encoding lacks; one line of the script, the
    success message of line 186, has characters outside ASCII.  The values
    interpolated into a line (paths, numbers, exceptions, the captured
    output of [iconutil]) are taken to be text of the locale the console
    uses and are always written. *)

From Stdlib Require Import ZArith Lia.
From stdpp Require Import gmap strings pretty list fin_maps.

Open Scope Z_scope.

(** ** Pillow: pictures *)

(** One pixel, 8 bits per band.  For a picture without alpha the fourth
    band is padding. *)
Record pixel := Pixel { red : Z; green : Z; blue : Z; alpha : Z }.

(** [Image.Image]: its [mode] string, its [size] (width, height) and its
    raster, read by coordinates (column, row). *)
Record image := Image {
  mode : string;
  size : Z * Z;
  getpixel : Z -> Z -> pixel
}.

(** [Image.Resampling]. *)
Inductive Resampling := NEAREST | BOX | BILINEAR | HAMMING | BICUBIC | LANCZOS.

(** The numeric kernels of Pillow that the script relies on but never
    inspects: the resampling filters behind [Image.resize] and the band
    conversions behind [Image.convert].  They are functions of the picture
    and of what is asked for: Pillow computes the same raster each time. *)
Class Pillow := {
  resample : Resampling -> image -> Z * Z -> Z -> Z -> pixel;
  convert_raster : image -> string -> Z -> Z -> pixel
}.

Definition in_bounds (im : image) (x y : Z) : bool :=
  (0 <=? x) && (x <? (size im).1) && (0 <=? y) && (y <? (size im).2).

(** [im.crop((left, upper, right, lower))]: a picture of the box's size in
    the same mode; what the box covers outside the picture is zero-filled. *)
Definition crop (im : image) (box : Z * Z * Z * Z) : image :=
  let '(x0, y0, x1, y1) := box in
  {| mode := mode im;
     size := (x1 - x0, y1 - y0);
     getpixel := fun x y =>
       if in_bounds im (x + x0) (y + y0)
       then getpixel im (x + x0) (y + y0)
       else Pixel 0 0 0 0 |}.

(** [im.resize(size, resample)]: the requested size, the mode kept. *)
Definition resize `{Pillow} (im : image) (sz : Z * Z) (filter : Resampling) : image :=
  {| mode := mode im; size := sz; getpixel := resample filter im sz |}.

(** [im.convert(mode)]: a copy when the mode is already the requested one. *)
Definition convert `{Pillow} (im : image) (m : string) : image :=
  if decide (mode im = m) then im
  else {| mode := m; size := size im; getpixel := convert_raster im m |}.

(** [Image.new(mode, size, color)]. *)
Definition Image_new (m : string) (sz : Z * Z) (color : Z * Z * Z) : image :=
  let '(r, g, b) := color in
  {| mode := m; size := sz; getpixel := fun _ _ => Pixel r g b 255 |}.

(** Pillow's 8-bit blend: [DIV255 a] is [a / 255] rounded to nearest, and
    [BLEND8 mask in1 in2] mixes [in1] and [in2] with weights [255 - mask]
    and [mask]. *)
Definition DIV255 (a : Z) : Z :=
  let tmp := a + 128 in Z.shiftr (Z.shiftr tmp 8 + tmp) 8.

Definition BLEND8 (mask in1 in2 : Z) : Z :=
  DIV255 (in1 * (255 - mask) + in2 * mask).

Definition blend_pixel (mask : Z) (under over : pixel) : pixel :=
  Pixel (BLEND8 mask (red under) (red over))
        (BLEND8 mask (green under) (green over))
        (BLEND8 mask (blue under) (blue over))
        (alpha under).

(** [self.paste(im, (x0, y0), mask)] with an RGBA [mask]: inside the box of
    [im], placed at [(x0, y0)], every pixel of [self] is blended with the
    pixel of [im] weighted by the alpha band of [mask]; [self] keeps its
    mode and size.  Python mutates [self]; the new [self] is returned. *)
Definition paste (self im : image) (at_ : Z * Z) (mask : image) : image :=
  let '(x0, y0) := at_ in
  {| mode := mode self;
     size := size self;
     getpixel := fun x y =>
       if in_bounds self x y && in_bounds im (x - x0) (y - y0)
       then blend_pixel (alpha (getpixel mask (x - x0) (y - y0)))
                        (getpixel self x y) (getpixel im (x - x0) (y - y0))
       else getpixel self x y |}.

(** ** The Square Cropper *)

Definition crop_to_square (img : image) : image :=
  let '(width, height) := size img in
  if decide (width = height) then img
  else
    let size_ := Z.min width height in
    let left := (width - size_) / 2 in
    let top := (height - size_) / 2 in
    let right := left + size_ in
    let bottom := top + size_ in
    crop img (left, top, right, bottom).

(** ** Paths, files and the console *)

(** A path is kept as the list of its components below the root:
    [os.path.join] appends components and [os.path.dirname] drops the last
    one. *)
Abbreviation path := (list string).

Definition os_path_join (a : path) (ps : list string) : path := a ++ ps.
Definition os_path_dirname (p : path) : path := removelast p.
Definition os_path_basename (p : path) : string := List.last p "".

(** [s.replace(old, new)]: every occurrence of [old], found left to right
    without overlap, becomes [new].  [skip] counts the characters of a
    match that are still to be dropped. *)
Fixpoint replace_from (old new : string) (skip : nat) (s : string) : string :=
  match s with
  | EmptyString =>
      match old with EmptyString => new | _ => EmptyString end
  | String c s' =>
      match skip with
      | S k => replace_from old new k s'
      | O =>
          if String.prefix old s then
            match old with
            | EmptyString => new +:+ String c (replace_from old new 0 s')
            | String _ old' => new +:+ replace_from old new (String.length old') s'
            end
          else String c (replace_from old new 0 s')
      end
  end.

Definition str_replace (s old new : string) : string := replace_from old new 0 s.

(** On a path the pattern holds no separator, so a match never spans two
    components and the replacement acts on each component. *)
Definition path_replace (p : path) (old new : string) : path :=
  (fun c => str_replace c old new) <$> p.

#[local] Set Warnings "-register-all".

(** JSON values as [json.dump] takes them; a dict keeps its keys in
    insertion order. *)
Inductive json :=
  | JString (s : string)
  | JInt (n : Z)
  | JList (items : list json)
  | JDict (fields : list (string * json)).

(** What a file holds: a picture written by [Image.save] in some format
    (reading it back with [Image.open] gives the picture), the text
    [json.dump] writes for a value at an indent, or any other bytes.  The
    encoders are functions of what they are given, so two files hold the
    same bytes when they hold the same [content]. *)
Inductive content :=
  | ImageFile (format : string) (im : image)
  | JsonFile (doc : json) (indent : Z)
  | Blob (bytes : string).

Inductive node :=
  | Dir
  | File (c : content).

(** The exceptions the modelled calls raise; all derive from [Exception]. *)
Inductive exn :=
  | FileNotFoundError
  | FileExistsError
  | IsADirectoryError
  | NotADirectoryError
  | SameFileError
  | UnidentifiedImageError
  | UnicodeEncodeError.

(** [subprocess.CompletedProcess] with captured text. *)
Record CompletedProcess := {
  returncode : Z;
  stdout : string;
  stderr : string
}.

(** The pieces of a printed line: [Str] is literal text of the script;
    the others are the interpolated values of an f-string, a number, a
    path, a size, an exception, or text captured from the tool. *)
Inductive fragment :=
  | Str (s : string)
  | Int (n : Z)
  | Path (p : path)
  | Size (wh : Z * Z)
  | Exc (e : exn)
  | Text (s : string).

Definition line := list fragment.

(** An installed [iconutil -c icns <iconset> -o <output>]: it reads the
    disk and answers with its exit status and captured output, and with the
    container it writes at [<output>], if it writes one. *)
Definition tool := gmap path node -> path -> path -> CompletedProcess * option content.

(** The machine the script runs on: the disk, the lines printed so far,
    [iconutil], when it is installed, and the encoding of [sys.stdout],
    given by the texts all of whose characters it has. *)
Record world := World {
  disk : gmap path node;
  console : list line;
  iconutil : option tool;
  stdout_encodes : string -> bool
}.

Definition set_disk (w : world) (d : gmap path node) : world :=
  {| disk := d; console := console w; iconutil := iconutil w;
     stdout_encodes := stdout_encodes w |}.

(** The root always exists and is a directory. *)
Definition node_at (d : gmap path node) (p : path) : option node :=
  match p with
  | [] => Some Dir
  | _ => d !! p
  end.

(** ** Python control flow: results, exceptions, state *)

Inductive outcome (A : Type) :=
  | Ret (a : A)
  | Raise (e : exn).
Arguments Ret {A} a.
Arguments Raise {A} e.

Definition M (A : Type) : Type := world -> outcome A * world.

Definition ret {A} (a : A) : M A := fun w => (Ret a, w).
Definition raise {A} (e : exn) : M A := fun w => (Raise e, w).

Definition bind {A B} (m : M A) (k : A -> M B) : M B :=
  fun w =>
    match m w with
    | (Ret a, w') => k a w'
    | (Raise e, w') => (Raise e, w')
    end.

(** [try: body  except Exception as e: handler(e)].  What the body did
    before it raised stays done. *)
Definition try_except {A} (body : M A) (handler : exn -> M A) : M A :=
  fun w =>
    match body w with
    | (Ret a, w') => (Ret a, w')
    | (Raise e, w') => handler e w'
    end.

Declare Scope py_scope.
Delimit Scope py_scope with py.
Notation "x <- m ;; k" := (bind m (fun x => k))
  (at level 100, m at next level, right associativity) : py_scope.
Notation "m ;; k" := (bind m (fun _ => k))
  (at level 100, right associativity) : py_scope.
Open Scope py_scope.

(** [for x in xs: body(x)]. *)
Fixpoint for_each {A} (xs : list A) (body : A -> M unit) : M unit :=
  match xs with
  | [] => ret tt
  | x :: xs' => body x ;; for_each xs' body
  end.

(** ** The calls into [os], [shutil], [subprocess], Pillow and [json] *)

(** Text made of ASCII characters only: no byte has its high bit set. *)
Fixpoint ascii_only (s : string) : bool :=
  match s with
  | EmptyString => true
  | String (Ascii.Ascii _ _ _ _ _ _ _ b7) s' => negb b7 && ascii_only s'
  end.

(** Every encoding of a console has the ASCII characters; other
    characters it has or has not. *)
Definition encodes (w : world) (s : string) : bool :=
  ascii_only s || stdout_encodes w s.

(** What the console can write of a line.  Literal text of the script is
    checked against the encoding; interpolated values are taken to be
    text of the locale the console uses. *)
Definition printable (w : world) (f : fragment) : bool :=
  match f with
  | Str s => encodes w s
  | _ => true
  end.

(** [print(...)]: the line goes to the console, or, when the encoding of
    the console lacks a character of it, nothing is written and
    [UnicodeEncodeError] is raised. *)
Definition print (l : line) : M unit :=
  fun w =>
    if forallb (printable w) l then
      (Ret tt, {| disk := disk w; console := console w ++ [l]; iconutil := iconutil w;
                  stdout_encodes := stdout_encodes w |})
    else (Raise UnicodeEncodeError, w).

Definition os_path_exists (p : path) : M bool :=
  fun w => (Ret (bool_decide (is_Some (node_at (disk w) p))), w).

(** Creating or truncating a regular file at [p]: the parent has to be a
    directory and [p] must not be one. *)
Definition write_file (p : path) (c : content) : M unit :=
  fun w =>
    match node_at (disk w) p with
    | Some Dir => (Raise IsADirectoryError, w)
    | _ =>
        match node_at (disk w) (os_path_dirname p) with
        | None => (Raise FileNotFoundError, w)
        | Some (File _) => (Raise NotADirectoryError, w)
        | Some Dir => (Ret tt, set_disk w (<[p := File c]> (disk w)))
        end
    end.

(** [os.makedirs(p, exist_ok=True)], walking down from [above]: missing
    directories are created; a regular file in the way raises. *)
Fixpoint makedirs_from (above : path) (below : list string) (d : gmap path node)
  : outcome unit * gmap path node :=
  match below with
  | [] => (Ret tt, d)
  | c :: below' =>
      let q := above ++ [c] in
      match d !! q with
      | Some Dir => makedirs_from q below' d
      | Some (File _) =>
          (Raise (match below' with [] => FileExistsError | _ => NotADirectoryError end), d)
      | None => makedirs_from q below' (<[q := Dir]> d)
      end
  end.

Definition os_makedirs (p : path) : M unit :=
  fun w => let '(r, d) := makedirs_from [] p (disk w) in (r, set_disk w d).

(** [shutil.copy2(src, dst)]: [src] has to be a regular file; a [dst] that
    is a directory receives the file under the name of [src]. *)
Definition shutil_copy2 (src dst : path) : M unit :=
  fun w =>
    match node_at (disk w) src with
    | None => (Raise FileNotFoundError, w)
    | Some Dir => (Raise IsADirectoryError, w)
    | Some (File c) =>
        let target :=
          match node_at (disk w) dst with
          | Some Dir => dst ++ [os_path_basename src]
          | _ => dst
          end in
        if decide (target = src) then (Raise SameFileError, w)
        else write_file target c w
    end.

(** [shutil.rmtree(p)]: the directory [p] goes, with all below it. *)
Definition shutil_rmtree (p : path) : M unit :=
  fun w =>
    match node_at (disk w) p with
    | None => (Raise FileNotFoundError, w)
    | Some (File _) => (Raise NotADirectoryError, w)
    | Some Dir =>
        (Ret tt, set_disk w (filter (fun kv => ¬ (p `prefix_of` kv.1)) (disk w)))
    end.

(** [subprocess.run(argv, capture_output=True, text=True)].  The one
    program the script starts is [iconutil]; a program that is not
    installed makes [run] raise [FileNotFoundError]. *)
Definition subprocess_run (argv : list fragment) : M CompletedProcess :=
  fun w =>
    match argv with
    | [Str "iconutil"; Str "-c"; Str "icns"; Path iconset; Str "-o"; Path output] =>
        match iconutil w with
        | None => (Raise FileNotFoundError, w)
        | Some run =>
            let '(result, written) := run (disk w) iconset output in
            (Ret result,
             match written with
             | Some c => set_disk w (<[output := File c]> (disk w))
             | None => w
             end)
        end
    | _ => (Raise FileNotFoundError, w)
    end.

(** [Image.open(p)]. *)
Definition Image_open (p : path) : M image :=
  fun w =>
    match node_at (disk w) p with
    | None => (Raise FileNotFoundError, w)
    | Some Dir => (Raise IsADirectoryError, w)
    | Some (File (ImageFile _ im)) => (Ret im, w)
    | Some (File _) => (Raise UnidentifiedImageError, w)
    end.

(** [im.save(p, format)]. *)
Definition save (im : image) (p : path) (format : string) : M unit :=
  write_file p (ImageFile format im).

(** [with open(p, "w") as f: json.dump(doc, f, indent=indent)]. *)
Definition json_dump_to (doc : json) (p : path) (indent : Z) : M unit :=
  write_file p (JsonFile doc indent).

(** ** The script *)

(** Icon sizes for macOS (size, scale, filename). *)
Definition ICON_SIZES : list (Z * Z * string) := [
  (16, 1, "icon_16x16.png");
  (16, 2, "icon_16x16@2x.png");
  (32, 1, "icon_32x32.png");
  (32, 2, "icon_32x32@2x.png");
  (128, 1, "icon_128x128.png");
  (128, 2, "icon_128x128@2x.png");
  (256, 1, "icon_256x256.png");
  (256, 2, "icon_256x256@2x.png");
  (512, 1, "icon_512x512.png");
  (512, 2, "icon_512x512@2x.png")
].

Definition create_icon `{Pillow}
    (source_img : image) (output_path : path) (size_ scale : Z) : M unit :=
  let actual_size := size_ * scale in
  let resized := resize source_img (actual_size, actual_size) LANCZOS in
  let resized :=
    if decide (mode resized = "RGBA") then
      let background := Image_new "RGB" (actual_size, actual_size) (0, 0, 0) in
      let background := paste background resized (0, 0) resized in
      background
    else if decide (mode resized ≠ "RGB") then
      convert resized "RGB"
    else resized in
  save resized output_path "PNG" ;;
  print [Str "Created: "; Path output_path; Str " ("; Int actual_size; Str "x";
         Int actual_size; Str ")"].

(** The table that [generate_icns] builds on entry. *)
Definition icon_mapping : list (string * string) := [
  ("icon_16x16.png", "icon_16x16.png");
  ("icon_16x16@2x.png", "icon_16x16@2x.png");
  ("icon_32x32.png", "icon_32x32.png");
  ("icon_32x32@2x.png", "icon_32x32@2x.png");
  ("icon_128x128.png", "icon_128x128.png");
  ("icon_128x128@2x.png", "icon_128x128@2x.png");
  ("icon_256x256.png", "icon_256x256.png");
  ("icon_256x256@2x.png", "icon_256x256@2x.png");
  ("icon_512x512.png", "icon_512x512.png");
  ("icon_512x512@2x.png", "icon_512x512@2x.png")
].

Definition generate_icns (input_dir output_path : path) : M bool :=
  try_except
    (let iconset_path := path_replace output_path ".icns" ".iconset" in
     os_makedirs iconset_path ;;
     for_each icon_mapping (fun '(src_name, dst_name) =>
       let src := os_path_join input_dir [src_name] in
       let dst := os_path_join iconset_path [dst_name] in
       found <- os_path_exists src ;;
       if found : bool then shutil_copy2 src dst else ret tt) ;;
     result <- subprocess_run
       [Str "iconutil"; Str "-c"; Str "icns"; Path iconset_path; Str "-o";
        Path output_path] ;;
     if decide (returncode result = 0) then
       print [Str "Created: "; Path output_path] ;;
       shutil_rmtree iconset_path ;;
       ret true
     else
       print [Str "Error creating .icns: "; Text (stderr result)] ;;
       ret false)
    (fun e =>
       print [Str "Error generating .icns: "; Exc e] ;;
       ret false).

(** The dict that [update_contents_json] dumps. *)
Definition contents : json :=
  let entry (filename scale size_ : string) :=
    JDict [("filename", JString filename); ("idiom", JString "mac");
           ("scale", JString scale); ("size", JString size_)] in
  JDict [
    ("images", JList [
       entry "icon_16x16.png" "1x" "16x16";
       entry "icon_16x16@2x.png" "2x" "16x16";
       entry "icon_32x32.png" "1x" "32x32";
       entry "icon_32x32@2x.png" "2x" "32x32";
       entry "icon_128x128.png" "1x" "128x128";
       entry "icon_128x128@2x.png" "2x" "128x128";
       entry "icon_256x256.png" "1x" "256x256";
       entry "icon_256x256@2x.png" "2x" "256x256";
       entry "icon_512x512.png" "1x" "512x512";
       entry "icon_512x512@2x.png" "2x" "512x512"
     ]);
    ("info", JDict [("author", JString "xcode"); ("version", JInt 1)])
  ].

Definition update_contents_json (output_dir : path) : M unit :=
  let contents_path := os_path_join output_dir ["Contents.json"] in
  json_dump_to contents contents_path 2 ;;
  print [Str "Updated: "; Path contents_path].

(** ["=" * 60]. *)
Fixpoint str_times (s : string) (n : nat) : string :=
  match n with
  | O => ""
  | S n' => s +:+ str_times s n'
  end.

(** [main()].  [script_dir], the directory of the script file, is what
    [os.path.dirname(os.path.abspath(__file__))] evaluates to. *)
Definition main `{Pillow} (script_dir : path) : M Z :=
  let source_path :=
    os_path_join script_dir ["offline_cinema.icon"; "Assets"; "output.png"] in
  let output_dir :=
    os_path_join script_dir ["OfflineCinema"; "Assets.xcassets"; "AppIcon.appiconset"] in
  let icns_path :=
    os_path_join script_dir ["OfflineCinema.app"; "Contents"; "Resources"; "AppIcon.icns"] in
  source_found <- os_path_exists source_path ;;
  if negb source_found then
    print [Str "Error: Source icon not found at "; Path source_path] ;;
    ret 1
  else
    os_makedirs output_dir ;;
    print [Str (str_times "=" 60)] ;;
    print [Str "Generating macOS app icons for Offline Cinema"] ;;
    print [Str (str_times "=" 60)] ;;
    print [Str "Source: "; Path source_path] ;;
    print [Str "Output: "; Path output_dir] ;;
    print [] ;;
    source_img <- Image_open source_path ;;
    let source_img := convert source_img "RGBA" in
    print [Str "Original image size: "; Size (size source_img)] ;;
    let source_img := crop_to_square source_img in
    print [Str "Cropped to square: "; Size (size source_img)] ;;
    print [] ;;
    for_each ICON_SIZES (fun '(size_, scale, filename) =>
      let output_path := os_path_join output_dir [filename] in
      create_icon source_img output_path size_ scale) ;;
    update_contents_json output_dir ;;
    let branding_icns := os_path_join script_dir ["branding"; "AppIcon.icns"] in
    os_makedirs (os_path_dirname branding_icns) ;;
    print [] ;;
    print [Str "Generating .icns file..."] ;;
    generate_icns output_dir branding_icns ;;
    let icns_dir := os_path_dirname icns_path in
    icns_dir_found <- os_path_exists icns_dir ;;
    (if icns_dir_found : bool then
       shutil_copy2 branding_icns icns_path ;;
       print [Str "Copied to: "; Path icns_path]
     else ret tt) ;;
    print [] ;;
    print [Str (str_times "=" 60)] ;;
    print [Str "âœ… App icons generated successfully!"] ;;
    print [Str (str_times "=" 60)] ;;
    print [] ;;
    print [Str "Next steps:"] ;;
    print [Str "1. Open Xcode and verify the icons in Assets.xcassets"] ;;
    print [Str "2. Rebuild the app to apply the new icons"] ;;
    print [] ;;
    ret 0.

(** [exit(main())]: the value [main] returns is the exit status; an
    exception that leaves [main] ends the interpreter with status 1. *)
Definition exit_main `{Pillow} (script_dir : path) (w : world) : Z * world :=
  match main script_dir w with
  | (Ret status, w') => (status, w')
  | (Raise _, w') => (1, w')
  end.

(** ** The paths and the stretches of [main] *)

Definition source_path (script_dir : path) : path :=
  os_path_join script_dir ["offline_cinema.icon"; "Assets"; "output.png"].
Definition output_dir (script_dir : path) : path :=
  os_path_join script_dir ["OfflineCinema"; "Assets.xcassets"; "AppIcon.appiconset"].
Definition icns_path (script_dir : path) : path :=
  os_path_join script_dir ["OfflineCinema.app"; "Contents"; "Resources"; "AppIcon.icns"].
Definition branding_icns (script_dir : path) : path :=
  os_path_join script_dir ["branding"; "AppIcon.icns"].
Definition contents_path (script_dir : path) : path :=
  os_path_join (output_dir script_dir) ["Contents.json"].

(** Lines 146 to 168 of the script: the output directory, the banner, the
    source picture, the ten bitmaps and the manifest. *)
Definition render_and_manifest `{Pillow} (script_dir : path) : M unit :=
  os_makedirs (output_dir script_dir) ;;
  print [Str (str_times "=" 60)] ;;
  print [Str "Generating macOS app icons for Offline Cinema"] ;;
  print [Str (str_times "=" 60)] ;;
  print [Str "Source: "; Path (source_path script_dir)] ;;
  print [Str "Output: "; Path (output_dir script_dir)] ;;
  print [] ;;
  source_img <- Image_open (source_path script_dir) ;;
  let source_img := convert source_img "RGBA" in
  print [Str "Original image size: "; Size (size source_img)] ;;
  let source_img := crop_to_square source_img in
  print [Str "Cropped to square: "; Size (size source_img)] ;;
  print [] ;;
  for_each ICON_SIZES (fun '(size_, scale, filename) =>
    let output_path := os_path_join (output_dir script_dir) [filename] in
    create_icon source_img output_path size_ scale) ;;
  update_contents_json (output_dir script_dir).

(** Lines 171 to 176: the branding directory and the packager. *)
Definition package (script_dir : path) : M bool :=
  os_makedirs (os_path_dirname (branding_icns script_dir)) ;;
  print [] ;;
  print [Str "Generating .icns file..."] ;;
  generate_icns (output_dir script_dir) (branding_icns script_dir).

(** Lines 179 to 182: the copy into the application bundle. *)
Definition copy_to_bundle (script_dir : path) : M unit :=
  let icns_dir := os_path_dirname (icns_path script_dir) in
  icns_dir_found <- os_path_exists icns_dir ;;
  if icns_dir_found : bool then
    shutil_copy2 (branding_icns script_dir) (icns_path script_dir) ;;
    print [Str "Copied to: "; Path (icns_path script_dir)]
  else ret tt.

(** Lines 184 to 194: the closing messages and the status. *)
Definition farewell : M Z :=
  print [] ;;
  print [Str (str_times "=" 60)] ;;
  print [Str "âœ… App icons generated successfully!"] ;;
  print [Str (str_times "=" 60)] ;;
  print [] ;;
  print [Str "Next steps:"] ;;
  print [Str "1. Open Xcode and verify the icons in Assets.xcassets"] ;;
  print [Str "2. Rebuild the app to apply the new icons"] ;;
  print [] ;;
  ret 0.

(** One turn of the staging loop of [generate_icns]. *)
Definition stage_bitmap (input_dir iconset_path : path) : string * string -> M unit :=
  fun '(src_name, dst_name) =>
    let src := os_path_join input_dir [src_name] in
    let dst := os_path_join iconset_path [dst_name] in
    found <- os_path_exists src ;;
    if found : bool then shutil_copy2 src dst else ret tt.

(** The try body of [generate_icns] up to the answer of the tool. *)
Definition stage_and_run (input_dir output_path : path) : M CompletedProcess :=
  let iconset_path := path_replace output_path ".icns" ".iconset" in
  os_makedirs iconset_path ;;
  for_each icon_mapping (stage_bitmap input_dir iconset_path) ;;
  subprocess_run
    [Str "iconutil"; Str "-c"; Str "icns"; Path iconset_path; Str "-o";
     Path output_path].

(** The bitmap that [create_icon] writes for a source picture. *)
Definition rendered `{Pillow} (source_img : image) (size_ scale : Z) : image :=
  let actual_size := size_ * scale in
  let resized := resize source_img (actual_size, actual_size) LANCZOS in
  if decide (mode resized = "RGBA") then
    paste (Image_new "RGB" (actual_size, actual_size) (0, 0, 0)) resized (0, 0) resized
  else if decide (mode resized ≠ "RGB") then convert resized "RGB"
  else resized.

(** ** A sample machine *)

(** A Pillow whose filters all pick the nearest source pixel and whose
    conversions keep the colour bands and make the picture opaque. *)
Definition nearest_pillow : Pillow := {|
  resample := fun _ im sz x y =>
    getpixel im (x * (size im).1 / sz.1) (y * (size im).2 / sz.2);
  convert_raster := fun im _ x y =>
    let p := getpixel im x y in Pixel (red p) (green p) (blue p) 255
|}.

Definition sample_dir : path := ["Users"; "dev"; "offline_cinema"].

Definition sample_picture : image :=
  {| mode := "RGB"; size := (1000, 600);
     getpixel := fun x y => Pixel (x mod 256) (y mod 256) 200 255 |}.

(** The same picture with an alpha band that fades from left to right. *)
Definition sample_picture_alpha : image :=
  {| mode := "RGBA"; size := (800, 800);
     getpixel := fun x y => Pixel (x mod 256) (y mod 256) 200 ((x + y) mod 256) |}.

Definition all_dirs (p : path) (d : gmap path node) : gmap path node :=
  (makedirs_from [] p d).2.

(** A checkout with the source picture and nothing else. *)
Definition fresh_disk : gmap path node :=
  <[source_path sample_dir := File (ImageFile "PNG" sample_picture)]>
    (all_dirs (os_path_dirname (source_path sample_dir)) ∅).

(** The same checkout next to a built application bundle. *)
Definition bundle_disk : gmap path node :=
  all_dirs (os_path_dirname (icns_path sample_dir)) fresh_disk.

(** The bundle and a container left in [branding/] by an earlier run. *)
Definition stale_disk : gmap path node :=
  <[branding_icns sample_dir := File (Blob "earlier run")]>
    (all_dirs (os_path_dirname (branding_icns sample_dir)) bundle_disk).

(** An [iconutil] that packs whatever is staged. *)
Definition packing_tool : tool :=
  fun _ _ _ => ({| returncode := 0; stdout := ""; stderr := "" |}, Some (Blob "icns")).

(** An [iconutil] that rejects the iconset. *)
Definition failing_tool : tool :=
  fun _ _ _ =>
    ({| returncode := 1; stdout := ""; stderr := "Invalid Iconset." |}, None).

(** A machine whose console is UTF-8: it has every character. *)
Definition machine (d : gmap path node) (t : option tool) : world :=
  {| disk := d; console := []; iconutil := t; stdout_encodes := fun _ => true |}.

(** A machine whose console is ASCII. *)
Definition ascii_machine (d : gmap path node) (t : option tool) : world :=
  {| disk := d; console := []; iconutil := t; stdout_encodes := fun _ => false |}.

(** The output directory after a run of the renderer: two of the ten
    bitmaps are there. *)
Definition partial_disk : gmap path node :=
  <[os_path_join (output_dir sample_dir) ["icon_16x16.png"] := File (Blob "png 16")]>
    (<[os_path_join (output_dir sample_dir) ["icon_32x32.png"] := File (Blob "png 32")]>
       (all_dirs (os_path_dirname (branding_icns sample_dir))
          (all_dirs (output_dir sample_dir) fresh_disk))).

(** The checkout once the output directory exists. *)
Definition rendering_disk : gmap path node :=
  all_dirs (output_dir sample_dir) fresh_disk.

(** A manifest of an earlier run is in place. *)
Definition rerun_disk : gmap path node :=
  <[contents_path sample_dir := File (Blob "old manifest")]> rendering_disk.

(** ** Vocabulary of the statements *)

(** The world after one more printed line. *)
Definition say (w : world) (l : line) : world :=
  {| disk := disk w; console := console w ++ [l]; iconutil := iconutil w;
     stdout_encodes := stdout_encodes w |}.

(** The one line of the script with characters outside ASCII, printed by
    line 186. *)
Definition success_line : string := "âœ… App icons generated successfully!".

(** Whatever its result, the computation leaves the encoding of the
    console as it is. *)
Definition Steady {A} (m : M A) : Prop :=
  forall w r w', m w = (r, w') -> stdout_encodes w' = stdout_encodes w.

(** A path at which a regular file can be created or overwritten. *)
Definition writable (d : gmap path node) (p : path) : Prop :=
  node_at d p <> Some Dir /\ node_at d (os_path_dirname p) = Some Dir.

(** [out] is [a / 255] rounded to the nearest integer. *)
Definition nearest_255th (a out : Z) : Prop :=
  255 * out - 127 <= a <= 255 * out + 127.

(** The manifest entry the specification gives for one row of the size
    table: the file name, the idiom [mac], the scale label [<scale>x] and
    the size label [<n>x<n>]. *)
Definition spec_manifest_entry (row : Z * Z * string) : json :=
  let '(n, scale, filename) := row in
  JDict [("filename", JString filename); ("idiom", JString "mac");
         ("scale", JString (pretty scale +:+ "x"));
         ("size", JString (pretty n +:+ "x" +:+ pretty n))].

(** The files a run renders: the ten bitmaps and the manifest. *)
Definition output_files (script_dir : path) : list path :=
  ((fun row : Z * Z * string => os_path_join (output_dir script_dir) [row.2]) <$> ICON_SIZES)
  ++ [contents_path script_dir].

(** [d'] still has every entry that [d] has at a path in [K]. *)
Definition keeps (K : path -> Prop) (d d' : gmap path node) : Prop :=
  forall k n, K k -> d !! k = Some n -> d' !! k = Some n.

(** Whatever its result, the computation leaves the entries at the paths
    in [K] in place. *)
Definition Keeps {A} (K : path -> Prop) (m : M A) : Prop :=
  forall w r w', m w = (r, w') -> keeps K (disk w) (disk w').

(** The paths outside [branding/] and [OfflineCinema.app/] of the script
    directory: the component at the depth of the script directory is
    neither name. *)
Definition apart (script_dir : path) (k : path) : Prop :=
  k !! length script_dir <> Some "branding" /\
  k !! length script_dir <> Some "OfflineCinema.app".

(** The picture [main] hands to the renderer: the source converted to
    RGBA, then cropped. *)
Definition prepared `{Pillow} (im : image) : image :=
  crop_to_square (convert im "RGBA").

(** [create_icon] without its test of the mode: the resized picture is
    always pasted over the black background. *)
Definition composite_icon `{Pillow}
    (source_img : image) (output_path : path) (size_ scale : Z) : M unit :=
  let actual_size := size_ * scale in
  let resized := resize source_img (actual_size, actual_size) LANCZOS in
  let background := Image_new "RGB" (actual_size, actual_size) (0, 0, 0) in
  let background := paste background resized (0, 0) resized in
  save background output_path "PNG" ;;
  print [Str "Created: "; Path output_path; Str " ("; Int actual_size; Str "x";
         Int actual_size; Str ")"].

(** [d'] differs from [d] at most at the paths in [T]. *)
Definition changes_only (T : path -> Prop) (d d' : gmap path node) : Prop :=
  forall k, ~ T k -> d' !! k = d !! k.

(** Whatever its result, the computation changes the disk at most at the
    paths in [T]. *)
Definition Touches {A} (T : path -> Prop) (m : M A) : Prop :=
  forall w r w', m w = (r, w') -> changes_only T (disk w) (disk w').

(** The paths [generate_icns] can change: the staging directory, the
    directories above it, all below it, and the output path. *)
Definition icns_footprint (output_path k : path) : Prop :=
  let iconset_path := path_replace output_path ".icns" ".iconset" in
  k `prefix_of` iconset_path \/ iconset_path `prefix_of` k \/ k = output_path.

(** The paths [main] can change before the copy into the bundle: the
    output directory and the directories above it, the ten bitmaps and the
    manifest, and [branding/] with the container and the staging tree. *)
Definition build_footprint (script_dir k : path) : Prop :=
  k `prefix_of` output_dir script_dir \/
  k ∈ output_files script_dir \/
  k `prefix_of` branding_icns script_dir \/
  icns_footprint (branding_icns script_dir) k.

(** The paths [main] can change: those and the container inside the
    bundle. *)
Definition main_footprint (script_dir k : path) : Prop :=
  build_footprint script_dir k \/ icns_path script_dir `prefix_of` k.

(** Lines 146 to 165 of the script: [render_and_manifest] without the
    manifest. *)
Definition render_bitmaps `{Pillow} (script_dir : path) : M unit :=
  os_makedirs (output_dir script_dir) ;;
  print [Str (str_times "=" 60)] ;;
  print [Str "Generating macOS app icons for Offline Cinema"] ;;
  print [Str (str_times "=" 60)] ;;
  print [Str "Source: "; Path (source_path script_dir)] ;;
  print [Str "Output: "; Path (output_dir script_dir)] ;;
  print [] ;;
  source_img <- Image_open (source_path script_dir) ;;
  let source_img := convert source_img "RGBA" in
  print [Str "Original image size: "; Size (size source_img)] ;;
  let source_img := crop_to_square source_img in
  print [Str "Cropped to square: "; Size (size source_img)] ;;
  print [] ;;
  for_each ICON_SIZES (fun '(size_, scale, filename) =>
    let output_path := os_path_join (output_dir script_dir) [filename] in
    create_icon source_img output_path size_ scale).

(** A checkout with a file of its own next to the script. *)
Definition readme_disk : gmap path node :=
  <[sample_dir ++ ["README.md"] := File (Blob "read me")]> bundle_disk.

(** A checkout whose source path holds something that is no picture. *)
Definition unreadable_disk : gmap path node :=
  <[source_path sample_dir := File (Blob "not a picture")]> fresh_disk.

(** A staging directory left by an earlier, failed run, with a stray
    file in it. *)
Definition leftover_disk : gmap path node :=
  <[path_replace (branding_icns sample_dir) ".icns" ".iconset" ++ ["notes.txt"] :=
      File (Blob "left over")]>
    (all_dirs (path_replace (branding_icns sample_dir) ".icns" ".iconset") partial_disk).

(** Two bitmaps rendered and an empty staging directory. *)
Definition staging_disk : gmap path node :=
  all_dirs (path_replace (branding_icns sample_dir) ".icns" ".iconset") partial_disk.

(** Whatever its result, the computation prints nothing and leaves the
    installed tool as it is. *)
Definition Quiet {A} (m : M A) : Prop :=
  forall w r w', m w = (r, w') -> iconutil w' = iconutil w /\ console w' = console w.

(** The output directory with a directory where the third bitmap should
    go. *)
Definition blocked_disk : gmap path node :=
  <[os_path_join (output_dir sample_dir) ["icon_32x32.png"] := Dir]> rendering_disk.

(** * Properties *)

(** ** The Square Cropper *)

Lemma crop_to_square_unfold (img : image) :
  crop_to_square img =
    if decide ((size img).1 = (size img).2) then img
    else
      let s := Z.min (size img).1 (size img).2 in
      crop img (((size img).1 - s) / 2, ((size img).2 - s) / 2,
                ((size img).1 - s) / 2 + s, ((size img).2 - s) / 2 + s).
Proof. unfold crop_to_square. destruct (size img) as [w h]. reflexivity. Qed.

Lemma crop_to_square_mode (img : image) : mode (crop_to_square img) = mode img.
Proof.
  rewrite crop_to_square_unfold. destruct (decide _); reflexivity.
Qed.

Lemma in_bounds_inside (im : image) (x y : Z) :
  0 <= x < (size im).1 -> 0 <= y < (size im).2 -> in_bounds im x y = true.
Proof.
  intros Hx Hy. unfold in_bounds.
  rewrite !andb_true_iff, !Z.leb_le, !Z.ltb_lt. lia.
Qed.

Lemma centred_offset (a s : Z) :
  s <= a -> 0 <= (a - s) / 2 /\ (a - s) / 2 + s <= a /\
            0 <= (a - ((a - s) / 2 + s)) - (a - s) / 2 <= 1.
Proof. intros Hs. pose proof (Z.div_mod (a - s) 2). pose proof (Z.mod_pos_bound (a - s) 2). lia. Qed.

(** C3.  The cropper hands back a square picture unchanged; any other
    picture is cut to the [size x size] box with [size = min(width, height)]
    at [left = (width - size) // 2], [top = (height - size) // 2].  In both
    cases the result is square, shows the source pixels of that box, the box
    lies inside the source with margins that differ by at most one on each
    axis, and no square inside the source is larger. *)
Theorem crop_to_square_centred_square (img : image) :
  let width := (size img).1 in
  let height := (size img).2 in
  let size_ := Z.min width height in
  let left := (width - size_) / 2 in
  let top := (height - size_) / 2 in
  (width = height -> crop_to_square img = img) /\
  (width <> height ->
     crop_to_square img = crop img (left, top, left + size_, top + size_)) /\
  mode (crop_to_square img) = mode img /\
  size (crop_to_square img) = (size_, size_) /\
  (forall x y, 0 <= x < size_ -> 0 <= y < size_ ->
     getpixel (crop_to_square img) x y = getpixel img (x + left) (y + top)) /\
  (0 <= left /\ left + size_ <= width /\ 0 <= top /\ top + size_ <= height) /\
  (0 <= (width - (left + size_)) - left <= 1 /\
   0 <= (height - (top + size_)) - top <= 1) /\
  (forall side x0 y0,
     0 <= x0 -> x0 + side <= width -> 0 <= y0 -> y0 + side <= height ->
     side <= size_).
Proof.
  intros width height size_ left top.
  assert (Hw : size_ <= width) by (apply Z.le_min_l).
  assert (Hh : size_ <= height) by (apply Z.le_min_r).
  destruct (centred_offset width size_ Hw) as (Hl0 & Hl1 & Hl2).
  destruct (centred_offset height size_ Hh) as (Ht0 & Ht1 & Ht2).
  fold left in Hl0, Hl1, Hl2. fold top in Ht0, Ht1, Ht2.
  rewrite crop_to_square_unfold. fold width height size_ left top.
  repeat split; try lia.
  - intros Heq. destruct (decide _); [reflexivity | contradiction].
  - intros Hne. destruct (decide _); [contradiction | reflexivity].
  - destruct (decide _); reflexivity.
  - destruct (decide _) as [Heq | Hne]; simpl.
    + destruct (size img) as [w h]. simpl in *. subst width height size_.
      rewrite Heq, Z.min_id. reflexivity.
    + f_equal; lia.
  - intros x y Hx Hy. destruct (decide _) as [Heq | Hne]; simpl.
    + assert (left = 0 /\ top = 0) as [-> ->].
      { subst left top size_. rewrite Heq, Z.min_id, Z.sub_diag. split; reflexivity. }
      rewrite !Z.add_0_r. reflexivity.
    + rewrite in_bounds_inside by (fold width height; lia). reflexivity.
Qed.

(** ** Running the monad *)

Lemma bind_Ret {A B} (m : M A) (k : A -> M B) w a w1 :
  m w = (Ret a, w1) -> bind m k w = k a w1.
Proof. intros E. unfold bind. rewrite E. reflexivity. Qed.

Lemma bind_Raise {A B} (m : M A) (k : A -> M B) w e w1 :
  m w = (Raise e, w1) -> bind m k w = (Raise e, w1).
Proof. intros E. unfold bind. rewrite E. reflexivity. Qed.

Lemma bind_inv_Ret {A B} (m : M A) (k : A -> M B) w b w' :
  bind m k w = (Ret b, w') ->
  exists a w1, m w = (Ret a, w1) /\ k a w1 = (Ret b, w').
Proof.
  unfold bind. destruct (m w) as [[a | e] w1]; intros E.
  - exists a, w1. split; [reflexivity | exact E].
  - discriminate.
Qed.

Lemma bind_assoc {A B C} (m : M A) (f : A -> M B) (g : B -> M C) w :
  bind (bind m f) g w = bind m (fun a => bind (f a) g) w.
Proof. unfold bind. destruct (m w) as [[a | e] w1]; reflexivity. Qed.

Lemma bind_ext {A B} (m : M A) (k k' : A -> M B) w :
  (forall a w1, k a w1 = k' a w1) -> bind m k w = bind m k' w.
Proof. intros E. unfold bind. destruct (m w) as [[a | e] w1]; [apply E | reflexivity]. Qed.

Lemma print_run (l : line) (w : world) :
  forallb (printable w) l = true -> print l w = (Ret tt, say w l).
Proof. intros E. unfold print. rewrite E. reflexivity. Qed.

Lemma print_refused (l : line) (w : world) :
  forallb (printable w) l = false -> print l w = (Raise UnicodeEncodeError, w).
Proof. intros E. unfold print. rewrite E. reflexivity. Qed.

Lemma bind_print {B} (l : line) (k : unit -> M B) (w : world) :
  forallb (printable w) l = true -> bind (print l) k w = k tt (say w l).
Proof. intros E. apply bind_Ret, print_run, E. Qed.

Lemma print_cases (l : line) (w : world) :
  print l w = (Ret tt, say w l) \/ print l w = (Raise UnicodeEncodeError, w).
Proof. unfold print, say. destruct (forallb _ l); auto. Qed.

Lemma write_file_ok (p : path) (c : content) (w : world) :
  writable (disk w) p ->
  write_file p c w = (Ret tt, set_disk w (<[p := File c]> (disk w))).
Proof.
  intros [Hp Hd]. unfold write_file. rewrite Hd.
  destruct (node_at (disk w) p) as [[|]|]; [contradiction | reflexivity | reflexivity].
Qed.

Lemma write_file_inv (p : path) (c : content) (w : world) r w' :
  write_file p c w = (r, w') ->
  (r = Ret tt /\ w' = set_disk w (<[p := File c]> (disk w)) /\ writable (disk w) p)
  \/ (exists e, r = Raise e /\ w' = w).
Proof.
  unfold write_file, writable.
  destruct (node_at (disk w) p) as [[|c0]|] eqn:Ep;
    destruct (node_at (disk w) (os_path_dirname p)) as [[|c1]|] eqn:Ed;
    intros E; inversion E; subst; eauto 6;
    left; repeat split; congruence.
Qed.

(** ** The Multi-Resolution Renderer *)

Lemma create_icon_unfold `{Pillow} source_img output_path size_ scale w :
  create_icon source_img output_path size_ scale w =
    bind (save (rendered source_img size_ scale) output_path "PNG")
      (fun _ => print [Str "Created: "; Path output_path; Str " ("; Int (size_ * scale);
                       Str "x"; Int (size_ * scale); Str ")"]) w.
Proof.
  unfold create_icon, rendered. cbv zeta.
  destruct (decide _); [reflexivity |]. destruct (decide _); reflexivity.
Qed.

Lemma create_icon_ok `{Pillow} source_img output_path size_ scale w :
  writable (disk w) output_path ->
  create_icon source_img output_path size_ scale w =
    (Ret tt,
     say (set_disk w (<[output_path :=
                          File (ImageFile "PNG" (rendered source_img size_ scale))]> (disk w)))
         [Str "Created: "; Path output_path; Str " ("; Int (size_ * scale);
          Str "x"; Int (size_ * scale); Str ")"]).
Proof.
  intros Hw. rewrite create_icon_unfold. unfold save.
  erewrite bind_Ret by (apply write_file_ok, Hw). apply print_run. reflexivity.
Qed.

Lemma rendered_size `{Pillow} source_img size_ scale :
  size (rendered source_img size_ scale) = (size_ * scale, size_ * scale).
Proof.
  unfold rendered, convert. cbv zeta. repeat (destruct (decide _)); reflexivity.
Qed.

Lemma rendered_mode `{Pillow} source_img size_ scale :
  mode (rendered source_img size_ scale) = "RGB".
Proof.
  unfold rendered, convert. cbv zeta.
  destruct (decide _) as [| Hrgba]; [reflexivity |].
  destruct (decide _) as [Hrgb |Hrgb]; [| apply dec_stable in Hrgb; exact Hrgb].
  destruct (decide _); [contradiction | reflexivity].
Qed.

Lemma DIV255_nearest (a : Z) : 0 <= a <= 255 * 255 -> nearest_255th a (DIV255 a).
Proof.
  intros Ha. unfold nearest_255th, DIV255. cbv zeta.
  rewrite !Z.shiftr_div_pow2 by lia. change (2 ^ 8) with 256.
  pose proof (Z.div_mod (a + 128) 256).
  pose proof (Z.mod_pos_bound (a + 128) 256).
  pose proof (Z.div_mod ((a + 128) / 256 + (a + 128)) 256).
  pose proof (Z.mod_pos_bound ((a + 128) / 256 + (a + 128)) 256).
  lia.
Qed.

Lemma BLEND8_over_black (mask over : Z) :
  0 <= mask <= 255 -> 0 <= over <= 255 ->
  nearest_255th (over * mask) (BLEND8 mask 0 over).
Proof.
  intros Hm Ho. unfold BLEND8. rewrite Z.mul_0_l, Z.add_0_l.
  apply DIV255_nearest. nia.
Qed.

(** C4.  The size table lists the ten specs, 16, 32, 128, 256 and 512
    pixels at scales 1 and 2.  For a spec of nominal size [size_] and scale
    [scale], [create_icon] writes at a writable path a bitmap of exactly
    [size_ * scale] by [size_ * scale] pixels, made from the source resized
    with the LANCZOS filter: an opaque RGB source gives the LANCZOS samples
    themselves, an RGBA source gives them pasted on the background, a
    source in another mode gives them converted to RGB. *)
Theorem create_icon_exact_dimensions `{Pillow}
    (source_img : image) (output_path : path) (size_ scale : Z) (w : world) :
  writable (disk w) output_path ->
  let actual_size := size_ * scale in
  let resized := resize source_img (actual_size, actual_size) LANCZOS in
  (fun row : Z * Z * string => (row.1.1, row.1.2)) <$> ICON_SIZES =
    (n ← [16; 32; 128; 256; 512]; s ← [1; 2]; [(n, s)]) /\
  exists w' bitmap,
    create_icon source_img output_path size_ scale w = (Ret tt, w') /\
    disk w' !! output_path = Some (File (ImageFile "PNG" bitmap)) /\
    size bitmap = (actual_size, actual_size) /\
    size resized = (actual_size, actual_size) /\
    getpixel resized = resample LANCZOS source_img (actual_size, actual_size) /\
    (mode source_img = "RGB" -> bitmap = resized) /\
    (mode source_img = "RGBA" ->
       bitmap = paste (Image_new "RGB" (actual_size, actual_size) (0, 0, 0))
                      resized (0, 0) resized) /\
    (mode source_img <> "RGB" -> mode source_img <> "RGBA" ->
       bitmap = convert resized "RGB").
Proof.
  intros Hw actual_size resized. split; [reflexivity |].
  eexists _, (rendered source_img size_ scale).
  split; [apply create_icon_ok, Hw |].
  split; [simpl; apply lookup_insert_eq |].
  split; [apply rendered_size |].
  split; [reflexivity |]. split; [reflexivity |].
  unfold rendered. cbv zeta. fold actual_size. fold resized.
  change (mode resized) with (mode source_img).
  split; [| split].
  - intros Hm; rewrite Hm.
    destruct (decide _); [discriminate |]. destruct (decide _); [contradiction | reflexivity].
  - intros Hm; rewrite Hm. destruct (decide _); [reflexivity | contradiction].
  - intros Hrgb Hrgba. destruct (decide _); [contradiction |].
    destruct (decide _); [reflexivity | contradiction].
Qed.

Lemma create_icon_exact_dimensions_witness :
  writable (disk (machine rendering_disk None))
           (os_path_join (output_dir sample_dir) ["icon_128x128.png"]) /\
  exists w' bitmap,
    @create_icon nearest_pillow (crop_to_square sample_picture)
      (os_path_join (output_dir sample_dir) ["icon_128x128.png"]) 128 1
      (machine rendering_disk None) = (Ret tt, w') /\
    disk w' !! os_path_join (output_dir sample_dir) ["icon_128x128.png"] =
      Some (File (ImageFile "PNG" bitmap)) /\
    size bitmap = (128, 128).
Proof.
  assert (Hw : writable (disk (machine rendering_disk None))
                 (os_path_join (output_dir sample_dir) ["icon_128x128.png"])).
  { split; [vm_compute; discriminate | vm_compute; reflexivity]. }
  split; [exact Hw |].
  destruct (@create_icon_exact_dimensions nearest_pillow (crop_to_square sample_picture)
              (os_path_join (output_dir sample_dir) ["icon_128x128.png"]) 128 1
              (machine rendering_disk None) Hw)
    as (_ & w' & bitmap & Hrun & Hfile & Hsize & _).
  exists w', bitmap. split; [exact Hrun |]. split; [exact Hfile | exact Hsize].
Defined.

(** C5.  The bitmap [create_icon] writes is in mode RGB, whatever the mode
    of the source.  When the resized picture is RGBA, it is pasted over a
    black RGB background through its own alpha band: every band of every
    pixel is [BLEND8 alpha 0 band], the nearest integer to
    [band * alpha / 255 + 0 * (255 - alpha) / 255].  In any other mode the
    resized picture is converted to RGB, which leaves an RGB picture as it
    is. *)
Theorem create_icon_opaque_rgb `{Pillow}
    (source_img : image) (output_path : path) (size_ scale : Z) (w : world) :
  writable (disk w) output_path ->
  let actual_size := size_ * scale in
  let resized := resize source_img (actual_size, actual_size) LANCZOS in
  exists w' bitmap,
    create_icon source_img output_path size_ scale w = (Ret tt, w') /\
    disk w' !! output_path = Some (File (ImageFile "PNG" bitmap)) /\
    mode bitmap = "RGB" /\
    (mode resized = "RGBA" ->
       bitmap = paste (Image_new "RGB" (actual_size, actual_size) (0, 0, 0))
                      resized (0, 0) resized /\
       forall x y, 0 <= x < actual_size -> 0 <= y < actual_size ->
         let src := getpixel resized x y in
         let out := getpixel bitmap x y in
         red out = BLEND8 (alpha src) 0 (red src) /\
         green out = BLEND8 (alpha src) 0 (green src) /\
         blue out = BLEND8 (alpha src) 0 (blue src) /\
         (0 <= alpha src <= 255 ->
            (0 <= red src <= 255 -> nearest_255th (red src * alpha src) (red out)) /\
            (0 <= green src <= 255 -> nearest_255th (green src * alpha src) (green out)) /\
            (0 <= blue src <= 255 -> nearest_255th (blue src * alpha src) (blue out)))) /\
    (mode resized <> "RGBA" -> bitmap = convert resized "RGB") /\
    (mode resized = "RGB" -> bitmap = resized).
Proof.
  intros Hw actual_size resized.
  eexists _, (rendered source_img size_ scale).
  split; [apply create_icon_ok, Hw |].
  split; [simpl; apply lookup_insert_eq |].
  split; [apply rendered_mode |].
  unfold rendered. cbv zeta. fold actual_size. fold resized.
  split; [| split].
  - intros Hm. destruct (decide _); [| contradiction].
    split; [reflexivity |]. intros x y Hx Hy.
    cbn [paste getpixel Image_new]. rewrite !Z.sub_0_r.
    rewrite !in_bounds_inside by (cbn [size Image_new resized resize fst snd]; lia).
    cbn [andb blend_pixel red green blue].
    do 3 (split; [reflexivity |]).
    intros Ha. split; [| split]; intros Hc; apply BLEND8_over_black; assumption.
  - intros Hm. destruct (decide _); [contradiction |].
    destruct (decide _) as [| Hrgb]; [reflexivity |].
    apply dec_stable in Hrgb. unfold convert. destruct (decide _); [reflexivity | contradiction].
  - intros Hm. rewrite Hm. destruct (decide _); [discriminate |].
    destruct (decide _); [contradiction | reflexivity].
Qed.

Lemma create_icon_opaque_rgb_witness :
  writable (disk (machine rendering_disk None))
           (os_path_join (output_dir sample_dir) ["icon_16x16.png"]) /\
  exists w' bitmap,
    @create_icon nearest_pillow sample_picture_alpha
      (os_path_join (output_dir sample_dir) ["icon_16x16.png"]) 16 1
      (machine rendering_disk None) = (Ret tt, w') /\
    disk w' !! os_path_join (output_dir sample_dir) ["icon_16x16.png"] =
      Some (File (ImageFile "PNG" bitmap)) /\
    mode bitmap = "RGB".
Proof.
  assert (Hw : writable (disk (machine rendering_disk None))
                 (os_path_join (output_dir sample_dir) ["icon_16x16.png"])).
  { split; [vm_compute; discriminate | vm_compute; reflexivity]. }
  split; [exact Hw |].
  destruct (@create_icon_opaque_rgb nearest_pillow sample_picture_alpha
              (os_path_join (output_dir sample_dir) ["icon_16x16.png"]) 16 1
              (machine rendering_disk None) Hw)
    as (w' & bitmap & Hrun & Hfile & Hmode & _).
  exists w', bitmap. split; [exact Hrun |]. split; [exact Hfile | exact Hmode].
Defined.

(** ** The Manifest Writer *)

Lemma update_contents_json_ok (out : path) (w : world) :
  writable (disk w) (os_path_join out ["Contents.json"]) ->
  update_contents_json out w =
    (Ret tt,
     say (set_disk w (<[os_path_join out ["Contents.json"] := File (JsonFile contents 2)]>
                        (disk w)))
         [Str "Updated: "; Path (os_path_join out ["Contents.json"])]).
Proof.
  intros Hw. unfold update_contents_json, json_dump_to. cbv zeta.
  erewrite bind_Ret by (apply write_file_ok, Hw). apply print_run. reflexivity.
Qed.

(** C6.  Where the manifest path can be written, [update_contents_json]
    returns normally and the file there is the dump, at indent 2, of the
    manifest, whatever the path held before (an older file is replaced, no
    other path changes).  The manifest has an [images] list with one entry
    per row of the size table, in the table's order, each naming the row's
    bitmap file with idiom [mac], scale [<scale>x] and size [<n>x<n>]; so it
    has ten entries, with scale [1x] or [2x]; and its [info] object is
    [{author: xcode, version: 1}]. *)
Theorem update_contents_json_manifest (output_dir_ : path) (w : world) :
  writable (disk w) (os_path_join output_dir_ ["Contents.json"]) ->
  exists w',
    update_contents_json output_dir_ w = (Ret tt, w') /\
    disk w' !! os_path_join output_dir_ ["Contents.json"] =
      Some (File (JsonFile contents 2)) /\
    (forall p, p <> os_path_join output_dir_ ["Contents.json"] ->
       disk w' !! p = disk w !! p) /\
    contents =
      JDict [("images", JList (spec_manifest_entry <$> ICON_SIZES));
             ("info", JDict [("author", JString "xcode"); ("version", JInt 1)])] /\
    length (spec_manifest_entry <$> ICON_SIZES) = 10%nat /\
    Forall (fun row : Z * Z * string => row.1.2 = 1 \/ row.1.2 = 2) ICON_SIZES.
Proof.
  intros Hw. eexists. split; [apply update_contents_json_ok, Hw |].
  split; [simpl; apply lookup_insert_eq |].
  split; [intros p Hp; simpl; apply lookup_insert_ne; congruence |].
  split; [reflexivity |]. split; [reflexivity |].
  unfold ICON_SIZES. repeat (constructor; [simpl; auto |]). constructor.
Qed.

Lemma update_contents_json_manifest_witness :
  writable (disk (machine rerun_disk None)) (contents_path sample_dir) /\
  disk (machine rerun_disk None) !! contents_path sample_dir =
    Some (File (Blob "old manifest")) /\
  exists w',
    update_contents_json (output_dir sample_dir) (machine rerun_disk None) = (Ret tt, w') /\
    disk w' !! contents_path sample_dir = Some (File (JsonFile contents 2)).
Proof.
  assert (Hw : writable (disk (machine rerun_disk None)) (contents_path sample_dir)).
  { split; [vm_compute; discriminate | vm_compute; reflexivity]. }
  split; [exact Hw |]. split; [vm_compute; reflexivity |].
  destruct (update_contents_json_manifest (output_dir sample_dir)
              (machine rerun_disk None) Hw) as (w' & Hrun & Hfile & _).
  exists w'. split; [exact Hrun | exact Hfile].
Defined.

(** ** What a computation leaves in place *)

Lemma keeps_refl K d : keeps K d d.
Proof. intros k n _ E. exact E. Qed.

Lemma keeps_trans K d1 d2 d3 : keeps K d1 d2 -> keeps K d2 d3 -> keeps K d1 d3.
Proof. intros H12 H23 k n Hk E. eapply H23, H12; eassumption. Qed.

Lemma Keeps_ret {A} K (a : A) : Keeps K (ret a).
Proof. intros w r w' E. inversion E. apply keeps_refl. Qed.

Lemma Keeps_bind {A B} K (m : M A) (k : A -> M B) :
  Keeps K m -> (forall a, Keeps K (k a)) -> Keeps K (bind m k).
Proof.
  intros Hm Hk w r w'. unfold bind.
  destruct (m w) as [[a | e] w1] eqn:E; intros E'.
  - eapply keeps_trans; [eapply Hm, E | eapply Hk, E'].
  - inversion E'; subst. eapply Hm, E.
Qed.

Lemma Keeps_try_except {A} K (body : M A) (handler : exn -> M A) :
  Keeps K body -> (forall e, Keeps K (handler e)) -> Keeps K (try_except body handler).
Proof.
  intros Hb Hh w r w'. unfold try_except.
  destruct (body w) as [[a | e] w1] eqn:E; intros E'.
  - inversion E'; subst. eapply Hb, E.
  - eapply keeps_trans; [eapply Hb, E | eapply Hh, E'].
Qed.

Lemma Keeps_for_each {A} K (xs : list A) (body : A -> M unit) :
  (forall x, x ∈ xs -> Keeps K (body x)) -> Keeps K (for_each xs body).
Proof.
  induction xs as [| x xs IH]; intros Hb; simpl.
  - apply Keeps_ret.
  - apply Keeps_bind.
    + apply Hb. left.
    + intros _. apply IH. intros y Hy. apply Hb. right. exact Hy.
Qed.

Lemma Keeps_if {A} K (b : bool) (m1 m2 : M A) :
  Keeps K m1 -> Keeps K m2 -> Keeps K (if b then m1 else m2).
Proof. destruct b; auto. Qed.

Lemma Keeps_print K l : Keeps K (print l).
Proof.
  intros w r w' E.
  destruct (print_cases l w) as [E' | E']; rewrite E' in E; inversion E; apply keeps_refl.
Qed.

Lemma Keeps_os_path_exists K p : Keeps K (os_path_exists p).
Proof. intros w r w' E. inversion E. apply keeps_refl. Qed.

Lemma Keeps_Image_open K p : Keeps K (Image_open p).
Proof.
  intros w r w'. unfold Image_open.
  destruct (node_at (disk w) p) as [[| [] ]|]; intros E; inversion E; apply keeps_refl.
Qed.

Lemma Keeps_write_file K p c : ~ K p -> Keeps K (write_file p c).
Proof.
  intros Hp w r w' E.
  destruct (write_file_inv _ _ _ _ _ E) as [(_ & -> & _) | (e & _ & ->)].
  - intros k n Hk Ek. simpl. rewrite lookup_insert_ne; [exact Ek | congruence].
  - apply keeps_refl.
Qed.

Lemma makedirs_from_keeps above below d r d' :
  makedirs_from above below d = (r, d') ->
  forall k n, d !! k = Some n -> d' !! k = Some n.
Proof.
  revert above d. induction below as [| c below IH]; intros above d E k n Ek; simpl in E.
  - inversion E; subst. exact Ek.
  - destruct (d !! (above ++ [c])) as [[| c0]|] eqn:Eq.
    + eapply IH; eassumption.
    + inversion E; subst. exact Ek.
    + eapply IH; [eassumption |]. rewrite lookup_insert_ne; [exact Ek |].
      congruence.
Qed.

Lemma Keeps_os_makedirs K p : Keeps K (os_makedirs p).
Proof.
  intros w r w'. unfold os_makedirs.
  destruct (makedirs_from [] p (disk w)) as [r0 d0] eqn:E. intros E'. inversion E'; subst.
  intros k n _ Ek. simpl. eapply makedirs_from_keeps; eassumption.
Qed.

Lemma Keeps_shutil_copy2 K src dst :
  (forall k, dst `prefix_of` k -> ~ K k) -> Keeps K (shutil_copy2 src dst).
Proof.
  intros Hdst w r w'. unfold shutil_copy2.
  destruct (node_at (disk w) src) as [[| c]|]; try (intros E; inversion E; apply keeps_refl).
  destruct (decide _); [intros E; inversion E; apply keeps_refl |].
  apply Keeps_write_file.
  destruct (node_at (disk w) dst) as [[|]|]; apply Hdst;
    [apply prefix_app_r | | ]; reflexivity.
Qed.

Lemma Keeps_shutil_rmtree K p :
  (forall k, p `prefix_of` k -> ~ K k) -> Keeps K (shutil_rmtree p).
Proof.
  intros Hp w r w'. unfold shutil_rmtree.
  destruct (node_at (disk w) p) as [[| c]|]; intros E; inversion E; subst;
    try apply keeps_refl.
  intros k n Hk Ek. simpl. apply map_lookup_filter_Some. split; [exact Ek |].
  simpl. intros Hpre. exact (Hp k Hpre Hk).
Qed.

Lemma Keeps_subprocess_run K (iconset output : path) :
  ~ K output ->
  Keeps K (subprocess_run [Str "iconutil"; Str "-c"; Str "icns"; Path iconset;
                           Str "-o"; Path output]).
Proof.
  intros Ho w r w'. unfold subprocess_run. simpl.
  destruct (iconutil w) as [run |]; [| intros E; inversion E; apply keeps_refl].
  destruct (run (disk w) iconset output) as [result [c |]]; intros E; inversion E; subst.
  - intros k n Hk Ek. simpl. rewrite lookup_insert_ne; [exact Ek | congruence].
  - apply keeps_refl.
Qed.

Lemma Keeps_generate_icns K (input_dir output_path : path) :
  (forall k, path_replace output_path ".icns" ".iconset" `prefix_of` k -> ~ K k) ->
  ~ K output_path ->
  Keeps K (generate_icns input_dir output_path).
Proof.
  intros Hset Hout. unfold generate_icns.
  apply Keeps_try_except.
  - cbv zeta. apply Keeps_bind; [apply Keeps_os_makedirs | intros _].
    apply Keeps_bind.
    { apply Keeps_for_each. intros [src_name dst_name] _.
      apply Keeps_bind; [apply Keeps_os_path_exists | intros found].
      apply Keeps_if; [| apply Keeps_ret].
      apply Keeps_shutil_copy2. intros k Hk. apply Hset.
      etransitivity; [| exact Hk]. apply prefix_app_r. reflexivity. }
    intros _. apply Keeps_bind; [apply Keeps_subprocess_run, Hout | intros result].
    destruct (decide _).
    + apply Keeps_bind; [apply Keeps_print | intros _].
      apply Keeps_bind; [apply Keeps_shutil_rmtree, Hset | intros _]. apply Keeps_ret.
    + apply Keeps_bind; [apply Keeps_print | intros _]. apply Keeps_ret.
  - intros e. apply Keeps_bind; [apply Keeps_print | intros _]. apply Keeps_ret.
Qed.

(** ** The Platform Packager *)

Lemma node_at_lookup (d : gmap path node) (p : path) :
  p <> [] -> node_at d p = d !! p.
Proof. destruct p; [contradiction | reflexivity]. Qed.

Lemma makedirs_from_dirs above below d d' :
  makedirs_from above below d = (Ret tt, d') ->
  forall pre suf, below = pre ++ suf -> pre <> [] -> d' !! (above ++ pre) = Some Dir.
Proof.
  revert above d. induction below as [| c below IH]; intros above d E pre suf Hsplit Hpre.
  - destruct pre; [contradiction | discriminate].
  - destruct pre as [| c' pre]; [contradiction |]. simpl in Hsplit.
    injection Hsplit as <- ->. simpl in E.
    assert (Hstep : exists d1, makedirs_from (above ++ [c]) (pre ++ suf) d1 = (Ret tt, d')
                               /\ d1 !! (above ++ [c]) = Some Dir).
    { destruct (d !! (above ++ [c])) as [[| c0]|] eqn:Eq.
      - exists d. split; assumption.
      - discriminate.
      - eexists. split; [exact E | apply lookup_insert_eq]. }
    destruct Hstep as (d1 & E1 & Hq).
    destruct pre as [| c'' pre].
    + eapply makedirs_from_keeps; eassumption.
    + replace (above ++ c :: c'' :: pre) with ((above ++ [c]) ++ c'' :: pre)
        by (rewrite <- app_assoc; reflexivity).
      eapply IH; [exact E1 | reflexivity | discriminate].
Qed.

Lemma os_makedirs_dir (p : path) (w w' : world) :
  os_makedirs p w = (Ret tt, w') -> node_at (disk w') p = Some Dir.
Proof.
  unfold os_makedirs. destruct (makedirs_from [] p (disk w)) as [r d] eqn:E.
  intros E'. inversion E'; subst. simpl.
  destruct p as [| c p]; [reflexivity |].
  apply (makedirs_from_dirs [] (c :: p) _ _ E (c :: p) []); [| discriminate].
  rewrite app_nil_r. reflexivity.
Qed.

Lemma generate_icns_unfold (input_dir output_path : path) (w : world) :
  generate_icns input_dir output_path w =
    try_except
      (bind (stage_and_run input_dir output_path) (fun result =>
         if decide (returncode result = 0) then
           print [Str "Created: "; Path output_path] ;;
           shutil_rmtree (path_replace output_path ".icns" ".iconset") ;;
           ret true
         else
           print [Str "Error creating .icns: "; Text (stderr result)] ;;
           ret false))
      (fun e => print [Str "Error generating .icns: "; Exc e] ;; ret false) w.
Proof.
  unfold generate_icns, stage_and_run, try_except. cbv zeta.
  rewrite !bind_assoc. erewrite bind_ext; [reflexivity |].
  intros [] w1. rewrite bind_assoc. reflexivity.
Qed.

Lemma generate_icns_returns (input_dir output_path : path) (w : world) :
  exists ok w', generate_icns input_dir output_path w = (Ret ok, w').
Proof.
  unfold generate_icns, try_except.
  match goal with |- context [match ?body w with _ => _ end] =>
    destruct (body w) as [[ok | e] w1] end.
  - eauto.
  - eexists _, _. reflexivity.
Qed.

Lemma stage_and_run_keeps_iconset (input_dir output_path : path) w result w1 :
  path_replace output_path ".icns" ".iconset" <> output_path ->
  stage_and_run input_dir output_path w = (Ret result, w1) ->
  node_at (disk w1) (path_replace output_path ".icns" ".iconset") = Some Dir.
Proof.
  intros Hne E. set (iconset := path_replace output_path ".icns" ".iconset") in *.
  destruct (decide (iconset = [])) as [-> | Hnil]; [reflexivity |].
  rewrite node_at_lookup by exact Hnil.
  unfold stage_and_run in E. cbv zeta in E. fold iconset in E.
  apply bind_inv_Ret in E as ([] & wa & Emk & E).
  apply os_makedirs_dir in Emk. rewrite node_at_lookup in Emk by exact Hnil.
  assert (HK : Keeps (fun k => k = iconset)
                 (for_each icon_mapping (stage_bitmap input_dir iconset) ;;
                  subprocess_run [Str "iconutil"; Str "-c"; Str "icns"; Path iconset;
                                  Str "-o"; Path output_path])).
  { apply Keeps_bind.
    - apply Keeps_for_each. intros [src_name dst_name] _. unfold stage_bitmap.
      apply Keeps_bind; [apply Keeps_os_path_exists | intros found].
      apply Keeps_if; [| apply Keeps_ret].
      apply Keeps_shutil_copy2. intros k [rest ->] Hk.
      apply (f_equal length) in Hk. unfold os_path_join in Hk.
      rewrite !length_app in Hk. simpl in Hk. lia.
    - intros _. apply Keeps_subprocess_run. congruence. }
  exact (HK _ _ _ E iconset Dir eq_refl Emk).
Qed.

Lemma iconset_of_branding (sd : path) :
  path_replace (branding_icns sd) ".icns" ".iconset" =
    path_replace sd ".icns" ".iconset" ++ ["branding"; "AppIcon.iconset"].
Proof. unfold path_replace, branding_icns, os_path_join. rewrite fmap_app. reflexivity. Qed.

Lemma branding_iconset_differs (sd : path) :
  path_replace (branding_icns sd) ".icns" ".iconset" <> branding_icns sd.
Proof.
  rewrite iconset_of_branding. unfold branding_icns, os_path_join. intros E.
  apply app_inj_2 in E as [_ E]; [discriminate | reflexivity].
Qed.

(** C7.  [generate_icns] always returns a boolean: no exception leaves
    it.  A turn of the staging loop for a bitmap that is missing from the
    input directory does nothing, and for one that is there it is the copy
    into the staging directory.  When staging ends and the tool answers,
    exit status 0 gives [True], the line [Created: <output>] and a disk
    from which the staging directory and all below it are gone (the output
    path must not itself be the staging path); any other status gives
    [False], the line [Error creating .icns: <stderr>] and a disk left as
    the tool left it, staging directory included.  An exception raised while
    staging or starting the tool gives [False] and the line
    [Error generating .icns: <exception>].  For the container path that
    [main] passes, the staging path differs from the output path. *)
Theorem generate_icns_never_raises (input_dir output_path : path) (w : world) :
  let iconset_path := path_replace output_path ".icns" ".iconset" in
  (exists ok w', generate_icns input_dir output_path w = (Ret ok, w')) /\
  (forall w0 src_name dst_name,
     node_at (disk w0) (os_path_join input_dir [src_name]) = None ->
     stage_bitmap input_dir iconset_path (src_name, dst_name) w0 = (Ret tt, w0)) /\
  (forall w0 src_name dst_name,
     node_at (disk w0) (os_path_join input_dir [src_name]) <> None ->
     stage_bitmap input_dir iconset_path (src_name, dst_name) w0 =
       shutil_copy2 (os_path_join input_dir [src_name])
                    (os_path_join iconset_path [dst_name]) w0) /\
  match stage_and_run input_dir output_path w with
  | (Ret result, w1) =>
      (returncode result = 0 -> iconset_path <> output_path ->
         exists w',
           generate_icns input_dir output_path w = (Ret true, w') /\
           console w' = console w1 ++ [[Str "Created: "; Path output_path]] /\
           (forall k, iconset_path `prefix_of` k -> disk w' !! k = None) /\
           (forall k, ~ iconset_path `prefix_of` k -> disk w' !! k = disk w1 !! k)) /\
      (returncode result <> 0 ->
         generate_icns input_dir output_path w =
           (Ret false, say w1 [Str "Error creating .icns: "; Text (stderr result)]) /\
         (iconset_path <> output_path -> node_at (disk w1) iconset_path = Some Dir))
  | (Raise e, w1) =>
      generate_icns input_dir output_path w =
        (Ret false, say w1 [Str "Error generating .icns: "; Exc e])
  end /\
  (forall script_dir,
     path_replace (branding_icns script_dir) ".icns" ".iconset" <> branding_icns script_dir).
Proof.
  intros iconset_path.
  split; [apply generate_icns_returns |].
  split; [| split; [| split; [| apply branding_iconset_differs]]].
  - intros w0 src_name dst_name Hmiss. unfold stage_bitmap, bind, os_path_exists. cbv zeta.
    rewrite Hmiss. rewrite bool_decide_eq_false_2; [reflexivity |].
    intros [n Hn]. discriminate.
  - intros w0 src_name dst_name Hthere. unfold stage_bitmap, bind, os_path_exists. cbv zeta.
    rewrite bool_decide_eq_true_2; [reflexivity |].
    destruct (node_at _ _); [eauto | contradiction].
  - rewrite generate_icns_unfold. unfold try_except.
    destruct (stage_and_run input_dir output_path w) as [[result | e] w1] eqn:Estage.
    + split.
      * intros Hzero Hne.
        pose proof (stage_and_run_keeps_iconset _ _ _ _ _ Hne Estage) as Hdir.
        rewrite (bind_Ret _ _ _ _ _ Estage).
        destruct (decide _); [| contradiction].
        subst iconset_path.
        rewrite bind_print by reflexivity.
        unfold bind, shutil_rmtree, say. cbn [disk console iconutil stdout_encodes].
        rewrite Hdir. eexists. split; [reflexivity |].
        split; [reflexivity |]. split.
        -- intros k Hk. simpl. apply map_lookup_filter_None. right.
           intros n _ Hn. apply Hn. exact Hk.
        -- intros k Hk. simpl.
           destruct (disk w1 !! k) as [n |] eqn:Ek.
           ++ apply map_lookup_filter_Some. split; [exact Ek | exact Hk].
           ++ apply map_lookup_filter_None. left. exact Ek.
      * intros Hnz. split.
        -- rewrite (bind_Ret _ _ _ _ _ Estage).
           destruct (decide _); [contradiction | reflexivity].
        -- intros Hne. exact (stage_and_run_keeps_iconset _ _ _ _ _ Hne Estage).
    + rewrite (bind_Raise _ _ _ _ _ Estage). reflexivity.
Qed.

Lemma generate_icns_never_raises_witness :
  (exists ok w',
     generate_icns (output_dir sample_dir) (branding_icns sample_dir)
       (machine partial_disk (Some failing_tool)) = (Ret ok, w')) /\
  (generate_icns (output_dir sample_dir) (branding_icns sample_dir)
     (machine partial_disk (Some failing_tool))).1 = Ret false.
Proof.
  split.
  - exact (proj1 (generate_icns_never_raises (output_dir sample_dir)
                    (branding_icns sample_dir) (machine partial_disk (Some failing_tool)))).
  - vm_compute. reflexivity.
Defined.

(** Two of the ten bitmaps are enough for a container: the tool is run on
    what was staged and the staging directory is removed afterwards. *)
Example generate_icns_partial_set :
  let w' := (generate_icns (output_dir sample_dir) (branding_icns sample_dir)
               (machine partial_disk (Some packing_tool))).2 in
  (generate_icns (output_dir sample_dir) (branding_icns sample_dir)
     (machine partial_disk (Some packing_tool))).1 = Ret true /\
  disk w' !! branding_icns sample_dir = Some (File (Blob "icns")) /\
  disk w' !! path_replace (branding_icns sample_dir) ".icns" ".iconset" = None.
Proof. vm_compute. repeat split. Qed.

(** Without [iconutil] the packager reports the exception and the two
    staged bitmaps stay where they were copied. *)
Example generate_icns_without_tool :
  let w' := (generate_icns (output_dir sample_dir) (branding_icns sample_dir)
               (machine partial_disk None)).2 in
  (generate_icns (output_dir sample_dir) (branding_icns sample_dir)
     (machine partial_disk None)).1 = Ret false /\
  console w' = [[Str "Error generating .icns: "; Exc FileNotFoundError]] /\
  disk w' !! (path_replace (branding_icns sample_dir) ".icns" ".iconset"
              ++ ["icon_16x16.png"]) = Some (File (Blob "png 16")) /\
  disk w' !! (path_replace (branding_icns sample_dir) ".icns" ".iconset"
              ++ ["icon_128x128.png"]) = None.
Proof. vm_compute. repeat split. Qed.

(** ** The encoding of the console *)

Lemma Steady_ret {A} (a : A) : Steady (ret a).
Proof. intros w r w' E. inversion E. reflexivity. Qed.

Lemma Steady_bind {A B} (m : M A) (k : A -> M B) :
  Steady m -> (forall a, Steady (k a)) -> Steady (bind m k).
Proof.
  intros Hm Hk w r w'. unfold bind.
  destruct (m w) as [[a | e] w1] eqn:E; intros E'.
  - rewrite (Hk _ _ _ _ E'). eapply Hm, E.
  - inversion E'; subst. eapply Hm, E.
Qed.

Lemma Steady_try_except {A} (body : M A) (handler : exn -> M A) :
  Steady body -> (forall e, Steady (handler e)) -> Steady (try_except body handler).
Proof.
  intros Hb Hh w r w'. unfold try_except.
  destruct (body w) as [[a | e] w1] eqn:E; intros E'.
  - inversion E'; subst. eapply Hb, E.
  - rewrite (Hh _ _ _ _ E'). eapply Hb, E.
Qed.

Lemma Steady_for_each {A} (xs : list A) (body : A -> M unit) :
  (forall x, Steady (body x)) -> Steady (for_each xs body).
Proof.
  intros Hb. induction xs as [| x xs IH]; simpl.
  - apply Steady_ret.
  - apply Steady_bind; [apply Hb | intros _; exact IH].
Qed.

Lemma Steady_print l : Steady (print l).
Proof.
  intros w r w' E.
  destruct (print_cases l w) as [E' | E']; rewrite E' in E; inversion E; reflexivity.
Qed.

Lemma Steady_os_path_exists p : Steady (os_path_exists p).
Proof. intros w r w' E. inversion E. reflexivity. Qed.

Lemma Steady_write_file p c : Steady (write_file p c).
Proof.
  intros w r w' E.
  destruct (write_file_inv _ _ _ _ _ E) as [(_ & -> & _) | (e & _ & ->)]; reflexivity.
Qed.

Lemma Steady_os_makedirs p : Steady (os_makedirs p).
Proof.
  intros w r w'. unfold os_makedirs.
  destruct (makedirs_from [] p (disk w)) as [r0 d0]. intros E. inversion E. reflexivity.
Qed.

Lemma Steady_shutil_copy2 src dst : Steady (shutil_copy2 src dst).
Proof.
  intros w r w'. unfold shutil_copy2.
  destruct (node_at (disk w) src) as [[| c]|]; try (intros E; inversion E; reflexivity).
  destruct (decide _); [intros E; inversion E; reflexivity |].
  apply Steady_write_file.
Qed.

Lemma Steady_shutil_rmtree p : Steady (shutil_rmtree p).
Proof.
  intros w r w'. unfold shutil_rmtree.
  destruct (node_at (disk w) p) as [[| c]|]; intros E; inversion E; reflexivity.
Qed.

Lemma Steady_iconutil (iconset output : path) :
  Steady (subprocess_run [Str "iconutil"; Str "-c"; Str "icns"; Path iconset;
                          Str "-o"; Path output]).
Proof.
  intros w r w'. unfold subprocess_run. simpl.
  destruct (iconutil w) as [run |]; [| intros E; inversion E; reflexivity].
  destruct (run (disk w) iconset output) as [result [c |]]; intros E; inversion E; reflexivity.
Qed.

Lemma Steady_Image_open p : Steady (Image_open p).
Proof.
  intros w r w'. unfold Image_open.
  destruct (node_at (disk w) p) as [[| [] ]|]; intros E; inversion E; reflexivity.
Qed.

Lemma Steady_create_icon `{Pillow} source_img output_path size_ scale :
  Steady (create_icon source_img output_path size_ scale).
Proof.
  intros w r w'. rewrite create_icon_unfold. revert w r w'.
  apply Steady_bind; [apply Steady_write_file | intros _; apply Steady_print].
Qed.

Lemma Steady_update_contents_json out : Steady (update_contents_json out).
Proof.
  unfold update_contents_json. cbv zeta.
  apply Steady_bind; [apply Steady_write_file | intros _; apply Steady_print].
Qed.

Lemma Steady_generate_icns input_dir output_path :
  Steady (generate_icns input_dir output_path).
Proof.
  unfold generate_icns. apply Steady_try_except.
  - cbv zeta. apply Steady_bind; [apply Steady_os_makedirs | intros _].
    apply Steady_bind.
    { apply Steady_for_each. intros [src_name dst_name].
      apply Steady_bind; [apply Steady_os_path_exists | intros found].
      destruct found; [apply Steady_shutil_copy2 | apply Steady_ret]. }
    intros _. apply Steady_bind; [apply Steady_iconutil | intros result].
    destruct (decide _).
    + apply Steady_bind; [apply Steady_print | intros _].
      apply Steady_bind; [apply Steady_shutil_rmtree | intros _]. apply Steady_ret.
    + apply Steady_bind; [apply Steady_print | intros _]. apply Steady_ret.
  - intros e. apply Steady_bind; [apply Steady_print | intros _]. apply Steady_ret.
Qed.

Lemma Steady_render_and_manifest `{Pillow} script_dir :
  Steady (render_and_manifest script_dir).
Proof.
  unfold render_and_manifest.
  apply Steady_bind; [apply Steady_os_makedirs | intros _].
  do 6 (apply Steady_bind; [apply Steady_print | intros _]).
  apply Steady_bind; [apply Steady_Image_open | intros source_img]. cbv zeta.
  do 3 (apply Steady_bind; [apply Steady_print | intros _]).
  apply Steady_bind; [| intros _; apply Steady_update_contents_json].
  apply Steady_for_each. intros [[size_ scale] filename]. apply Steady_create_icon.
Qed.

Lemma Steady_package script_dir : Steady (package script_dir).
Proof.
  unfold package.
  apply Steady_bind; [apply Steady_os_makedirs | intros _].
  do 2 (apply Steady_bind; [apply Steady_print | intros _]).
  apply Steady_generate_icns.
Qed.

Lemma Steady_copy_to_bundle script_dir : Steady (copy_to_bundle script_dir).
Proof.
  unfold copy_to_bundle. cbv zeta.
  apply Steady_bind; [apply Steady_os_path_exists | intros found].
  destruct found; [| apply Steady_ret].
  apply Steady_bind; [apply Steady_shutil_copy2 | intros _; apply Steady_print].
Qed.

Lemma encodes_steady (w w' : world) (s : string) :
  stdout_encodes w' = stdout_encodes w -> encodes w' s = encodes w s.
Proof. intros E. unfold encodes. rewrite E. reflexivity. Qed.

(** The console is the same from the start of [main] to its closing
    messages. *)
Lemma console_at_farewell `{Pillow} (script_dir : path) (w w1 : world) ok w2 r w3 s :
  render_and_manifest script_dir w = (Ret tt, w1) ->
  package script_dir w1 = (Ret ok, w2) ->
  copy_to_bundle script_dir w2 = (r, w3) ->
  encodes w3 s = encodes w s.
Proof.
  intros Hfront Hpkg Hcopy. apply encodes_steady.
  rewrite (Steady_copy_to_bundle _ _ _ _ Hcopy), (Steady_package _ _ _ _ Hpkg).
  exact (Steady_render_and_manifest _ _ _ _ Hfront).
Qed.

(** ** The entry point *)

Lemma main_stages `{Pillow} (script_dir : path) (w : world) :
  main script_dir w =
    (source_found <- os_path_exists (source_path script_dir) ;;
     if negb source_found then
       print [Str "Error: Source icon not found at "; Path (source_path script_dir)] ;;
       ret 1
     else
       render_and_manifest script_dir ;;
       package script_dir ;;
       copy_to_bundle script_dir ;;
       farewell) w.
Proof.
  unfold main. cbv zeta.
  apply bind_ext. intros found w1. destruct found; [| reflexivity]. cbn [negb].
  unfold render_and_manifest, package, copy_to_bundle, farewell.
  repeat (rewrite ?bind_assoc; apply bind_ext; intros ? ?).
  reflexivity.
Qed.

Lemma pair_eta {A B} (x : A * B) (a : A) : x.1 = a -> x = (a, x.2).
Proof. destruct x. simpl. intros ->. reflexivity. Qed.

Lemma os_path_exists_run (p : path) (w : world) :
  os_path_exists p w = (Ret (bool_decide (is_Some (node_at (disk w) p))), w).
Proof. reflexivity. Qed.

Lemma exists_false (d : gmap path node) (p : path) :
  node_at d p = None -> bool_decide (is_Some (node_at d p)) = false.
Proof. intros ->. apply bool_decide_eq_false_2. intros [n Hn]. discriminate. Qed.

Lemma exists_true (d : gmap path node) (p : path) :
  node_at d p <> None -> bool_decide (is_Some (node_at d p)) = true.
Proof.
  intros Hp. apply bool_decide_eq_true_2. destruct (node_at d p); [eauto | contradiction].
Qed.

Lemma farewell_run (w : world) :
  encodes w success_line = true ->
  exists w', farewell w = (Ret 0, w') /\ disk w' = disk w.
Proof.
  intros E. unfold farewell.
  rewrite !bind_print by reflexivity.
  rewrite bind_print by (cbn [forallb printable]; rewrite andb_true_r; exact E).
  rewrite !bind_print by reflexivity.
  eexists. split; reflexivity.
Qed.

Lemma farewell_refused (w : world) :
  encodes w success_line = false ->
  farewell w = (Raise UnicodeEncodeError, say (say w []) [Str (str_times "=" 60)]).
Proof.
  intros E. unfold farewell.
  rewrite !bind_print by reflexivity.
  apply bind_Raise, print_refused.
  cbn [forallb printable]. rewrite andb_true_r. exact E.
Qed.

Lemma farewell_inv (w : world) r w' :
  farewell w = (r, w') -> (r = Ret 0 \/ r = Raise UnicodeEncodeError) /\ disk w' = disk w.
Proof.
  intros E. destruct (encodes w success_line) eqn:Ec.
  - destruct (farewell_run w Ec) as (w4 & Hf & Hd). rewrite Hf in E.
    inversion E; subst. auto.
  - rewrite (farewell_refused w Ec) in E. inversion E; subst. auto.
Qed.

Lemma main_from_source `{Pillow} (script_dir : path) (w : world) :
  node_at (disk w) (source_path script_dir) <> None ->
  main script_dir w =
    (render_and_manifest script_dir ;; package script_dir ;;
     copy_to_bundle script_dir ;; farewell) w.
Proof.
  intros Hsrc. rewrite main_stages.
  erewrite bind_Ret by apply os_path_exists_run.
  rewrite exists_true by exact Hsrc. reflexivity.
Qed.

Lemma main_from_package `{Pillow} (script_dir : path) (w w1 : world) ok w2 :
  node_at (disk w) (source_path script_dir) <> None ->
  render_and_manifest script_dir w = (Ret tt, w1) ->
  package script_dir w1 = (Ret ok, w2) ->
  main script_dir w = (copy_to_bundle script_dir ;; farewell) w2.
Proof.
  intros Hsrc Hfront Hpkg. rewrite main_from_source by exact Hsrc.
  rewrite (bind_Ret _ _ _ _ _ Hfront). rewrite (bind_Ret _ _ _ _ _ Hpkg). reflexivity.
Qed.


Lemma copy_to_bundle_skip (script_dir : path) (w : world) :
  node_at (disk w) (os_path_dirname (icns_path script_dir)) = None ->
  copy_to_bundle script_dir w = (Ret tt, w).
Proof.
  intros Hdir. unfold copy_to_bundle. cbv zeta.
  erewrite bind_Ret by apply os_path_exists_run.
  rewrite exists_false by exact Hdir. reflexivity.
Qed.

Lemma copy_to_bundle_copy (script_dir : path) (w : world) :
  node_at (disk w) (os_path_dirname (icns_path script_dir)) <> None ->
  copy_to_bundle script_dir w =
    (shutil_copy2 (branding_icns script_dir) (icns_path script_dir) ;;
     print [Str "Copied to: "; Path (icns_path script_dir)]) w.
Proof.
  intros Hdir. unfold copy_to_bundle. cbv zeta.
  erewrite bind_Ret by apply os_path_exists_run.
  rewrite exists_true by exact Hdir. reflexivity.
Qed.

(** C8.  When nothing exists at the source path, [main] prints the error
    line and returns 1, which is the exit status, and the disk is what it
    was: no directory is created and no file is written. *)
Theorem main_without_source `{Pillow} (script_dir : path) (w : world) :
  node_at (disk w) (source_path script_dir) = None ->
  main script_dir w =
    (Ret 1, say w [Str "Error: Source icon not found at "; Path (source_path script_dir)]) /\
  (exit_main script_dir w).1 = 1 /\
  disk (exit_main script_dir w).2 = disk w.
Proof.
  intros Hsrc.
  assert (E : main script_dir w =
                (Ret 1, say w [Str "Error: Source icon not found at ";
                               Path (source_path script_dir)])).
  { rewrite main_stages. erewrite bind_Ret by apply os_path_exists_run.
    rewrite exists_false by exact Hsrc. reflexivity. }
  split; [exact E |]. unfold exit_main. rewrite E. split; reflexivity.
Qed.

Lemma main_without_source_witness :
  node_at (disk (machine ∅ (Some packing_tool))) (source_path sample_dir) = None /\
  (@exit_main nearest_pillow sample_dir (machine ∅ (Some packing_tool))).1 = 1 /\
  disk (@exit_main nearest_pillow sample_dir (machine ∅ (Some packing_tool))).2 = ∅.
Proof.
  assert (Hsrc : node_at (disk (machine ∅ (Some packing_tool))) (source_path sample_dir) = None)
    by reflexivity.
  split; [exact Hsrc |].
  exact (proj2 (@main_without_source nearest_pillow sample_dir
                  (machine ∅ (Some packing_tool)) Hsrc)).
Defined.


(** The same checkout on a console that is ASCII: the bitmaps, the
    manifest and the packager go as before and the copy is skipped, and
    then line 186 raises [UnicodeEncodeError] after the blank line and the
    rule have been printed; the exit status is 1. *)
Example exit_status_on_ascii_console :
  let w := ascii_machine fresh_disk None in
  let w1 := (@render_and_manifest nearest_pillow sample_dir w).2 in
  let w2 := (package sample_dir w1).2 in
  node_at (disk w) (source_path sample_dir) <> None /\
  (@render_and_manifest nearest_pillow sample_dir w).1 = Ret tt /\
  (package sample_dir w1).1 = Ret false /\
  node_at (disk w2) (os_path_dirname (icns_path sample_dir)) = None /\
  (copy_to_bundle sample_dir w2).1 = Ret tt /\
  encodes w success_line = false /\
  (@main nearest_pillow sample_dir w).1 = Raise UnicodeEncodeError /\
  console (@main nearest_pillow sample_dir w).2 = console w2 ++ [[]; [Str (str_times "=" 60)]] /\
  (@exit_main nearest_pillow sample_dir w).1 = 1.
Proof.
  cbv zeta. split; [vm_compute; discriminate |].
  do 7 (split; [vm_compute; reflexivity |]). vm_compute. reflexivity.
Qed.



(** C2 as claimed fails.  A container from an earlier run lies in
    [branding/], the bundle has its resource directory and [iconutil] is
    not installed: the packager returns [False], and the copy is made all
    the same; the bundle receives the earlier container, [Copied to:] is
    printed and [main] returns 0. *)
Lemma copy_after_failed_packaging :
  let w := machine stale_disk None in
  let w1 := (@render_and_manifest nearest_pillow sample_dir w).2 in
  let w2 := (package sample_dir w1).2 in
  let w' := (@main nearest_pillow sample_dir w).2 in
  (@render_and_manifest nearest_pillow sample_dir w).1 = Ret tt /\
  (package sample_dir w1).1 = Ret false /\
  (copy_to_bundle sample_dir w2).1 = Ret tt /\
  disk w !! icns_path sample_dir = None /\
  disk w' !! icns_path sample_dir = Some (File (Blob "earlier run")) /\
  [Str "Copied to: "; Path (icns_path sample_dir)] ∈ console w' /\
  (@main nearest_pillow sample_dir w).1 = Ret 0.
Proof.
  cbv zeta. do 5 (split; [vm_compute; reflexivity |]).
  split; [| vm_compute; reflexivity].
  apply list_elem_of_In. vm_compute. tauto.
Qed.

(** C2, amended.  After the packager has returned, with [True] or with
    [False], the one test before the copy is whether the resource
    directory of the bundle exists.  If it does not, the step changes
    neither the disk nor the console and [main] goes on to its closing
    messages, which leave the disk as it is, and returns 0 on a console
    whose encoding has the characters of the success line.  If it does,
    [main] calls [shutil.copy2(branding_icns, icns_path)] and prints
    [Copied to:]. *)
Theorem copy_to_bundle_gate `{Pillow} (script_dir : path) (w w1 : world)
    (ok : bool) (w2 : world) :
  node_at (disk w) (source_path script_dir) <> None ->
  render_and_manifest script_dir w = (Ret tt, w1) ->
  package script_dir w1 = (Ret ok, w2) ->
  (node_at (disk w2) (os_path_dirname (icns_path script_dir)) = None ->
     copy_to_bundle script_dir w2 = (Ret tt, w2) /\
     main script_dir w = farewell w2 /\
     (encodes w success_line = true -> (main script_dir w).1 = Ret 0) /\
     disk (main script_dir w).2 = disk w2) /\
  (node_at (disk w2) (os_path_dirname (icns_path script_dir)) <> None ->
     copy_to_bundle script_dir w2 =
       (shutil_copy2 (branding_icns script_dir) (icns_path script_dir) ;;
        print [Str "Copied to: "; Path (icns_path script_dir)]) w2 /\
     main script_dir w =
       ((shutil_copy2 (branding_icns script_dir) (icns_path script_dir) ;;
         print [Str "Copied to: "; Path (icns_path script_dir)]) ;;
        farewell) w2).
Proof.
  intros Hsrc Hfront Hpkg.
  pose proof (main_from_package _ _ _ _ _ Hsrc Hfront Hpkg) as Hmain.
  split; intros Hdir.
  - pose proof (copy_to_bundle_skip script_dir w2 Hdir) as Hskip.
    split; [exact Hskip |].
    rewrite Hmain, (bind_Ret _ _ _ _ _ Hskip).
    split; [reflexivity |]. split.
    + intros Henc. destruct (farewell_run w2) as (w4 & -> & _); [| reflexivity].
      rewrite (console_at_farewell _ _ _ _ _ _ _ _ Hfront Hpkg Hskip). exact Henc.
    + destruct (farewell w2) as [r w4] eqn:Ef. exact (proj2 (farewell_inv _ _ _ Ef)).
  - pose proof (copy_to_bundle_copy script_dir w2 Hdir) as Hcopy.
    split; [exact Hcopy |].
    rewrite Hmain. unfold bind at 1. rewrite Hcopy. reflexivity.
Qed.

Lemma copy_to_bundle_gate_witness :
  (node_at (disk (package sample_dir
       (@render_and_manifest nearest_pillow sample_dir (machine fresh_disk None)).2).2)
     (os_path_dirname (icns_path sample_dir)) = None) /\
  encodes (machine fresh_disk None) success_line = true /\
  (@main nearest_pillow sample_dir (machine fresh_disk None)).1 = Ret 0.
Proof.
  assert (Hsrc : node_at (disk (machine fresh_disk None)) (source_path sample_dir) <> None)
    by (vm_compute; discriminate).
  pose proof (pair_eta (@render_and_manifest nearest_pillow sample_dir (machine fresh_disk None))
                (Ret tt) ltac:(vm_compute; reflexivity)) as Hfront.
  pose proof (pair_eta (package sample_dir
                  (@render_and_manifest nearest_pillow sample_dir (machine fresh_disk None)).2)
                (Ret false) ltac:(vm_compute; reflexivity)) as Hpkg.
  assert (Hdir : node_at (disk (package sample_dir
             (@render_and_manifest nearest_pillow sample_dir (machine fresh_disk None)).2).2)
           (os_path_dirname (icns_path sample_dir)) = None)
    by (vm_compute; reflexivity).
  split; [exact Hdir |]. split; [reflexivity |].
  destruct (@copy_to_bundle_gate nearest_pillow sample_dir _ _ _ _ Hsrc Hfront Hpkg)
    as [Hskip _].
  exact (proj1 (proj2 (proj2 (Hskip Hdir))) eq_refl).
Defined.

(** ** Directories and the rendering loop *)

Lemma makedirs_from_other above below d r d' :
  makedirs_from above below d = (r, d') ->
  forall k, (forall pre suf, below = pre ++ suf -> pre <> [] -> k <> above ++ pre) ->
            d' !! k = d !! k.
Proof.
  revert above d. induction below as [| c below IH]; intros above d E k Hk; simpl in E.
  - inversion E; subst. reflexivity.
  - assert (Hq : k <> above ++ [c]).
    { apply (Hk [c] below); [reflexivity | discriminate]. }
    assert (Hrec : forall pre suf, below = pre ++ suf -> pre <> [] ->
                                   k <> (above ++ [c]) ++ pre).
    { intros pre suf -> Hpre. rewrite <- app_assoc. simpl.
      apply (Hk (c :: pre) suf); [reflexivity | discriminate]. }
    destruct (d !! (above ++ [c])) as [[| c0]|] eqn:Eq.
    + eapply IH; eassumption.
    + inversion E; subst. reflexivity.
    + rewrite (IH _ _ E k Hrec). apply lookup_insert_ne. congruence.
Qed.

Lemma makedirs_from_present above below d :
  (forall pre suf, below = pre ++ suf -> pre <> [] -> d !! (above ++ pre) = Some Dir) ->
  makedirs_from above below d = (Ret tt, d).
Proof.
  revert above. induction below as [| c below IH]; intros above Hdirs; simpl.
  - reflexivity.
  - rewrite (Hdirs [c] below) by (reflexivity || discriminate).
    apply IH. intros pre suf -> Hpre. rewrite <- app_assoc. simpl.
    apply (Hdirs (c :: pre) suf); [reflexivity | discriminate].
Qed.

Lemma dirname_join (out : path) (f : string) :
  os_path_dirname (os_path_join out [f]) = out.
Proof. unfold os_path_dirname, os_path_join. apply removelast_last. Qed.

Lemma join_nonempty (out : path) (f : string) : os_path_join out [f] <> [].
Proof. unfold os_path_join. destruct out; discriminate. Qed.

Lemma join_not_parent (out : path) (f : string) : os_path_join out [f] <> out.
Proof.
  unfold os_path_join. intros E. apply (f_equal length) in E.
  rewrite length_app in E. simpl in E. lia.
Qed.

Lemma create_icon_inv `{Pillow} source_img output_path size_ scale w w' :
  create_icon source_img output_path size_ scale w = (Ret tt, w') ->
  writable (disk w) output_path /\
  disk w' = <[output_path := File (ImageFile "PNG" (rendered source_img size_ scale))]> (disk w).
Proof.
  rewrite create_icon_unfold. intros E.
  apply bind_inv_Ret in E as ([] & wa & Esave & Eprint).
  unfold save in Esave.
  destruct (write_file_inv _ _ _ _ _ Esave) as [(_ & -> & Hw) | (e & He & _)];
    [| discriminate].
  inversion Eprint; subst. split; [exact Hw | reflexivity].
Qed.

Lemma render_loop_inv `{Pillow} (source_img : image) (out : path)
    (rows : list (Z * Z * string)) (w w' : world) :
  NoDup (rows.*2) ->
  for_each rows (fun '(size_, scale, filename) =>
    create_icon source_img (os_path_join out [filename]) size_ scale) w = (Ret tt, w') ->
  (forall row, row ∈ rows ->
     disk w' !! os_path_join out [row.2] =
       Some (File (ImageFile "PNG" (rendered source_img row.1.1 row.1.2)))) /\
  (forall k, (forall row, row ∈ rows -> k <> os_path_join out [row.2]) ->
     disk w' !! k = disk w !! k).
Proof.
  revert w. induction rows as [| [[n s] f] rows IH]; intros w Hnd E; simpl in E.
  - inversion E; subst. split; [intros row Hrow; inversion Hrow | reflexivity].
  - apply bind_inv_Ret in E as ([] & wa & Eicon & Erest).
    apply create_icon_inv in Eicon as [_ Hdisk].
    simpl in Hnd. apply NoDup_cons in Hnd as [Hf Hnd].
    destruct (IH wa Hnd Erest) as [Hfiles Hframe].
    split.
    + intros row Hrow. apply elem_of_cons in Hrow as [-> | Hrow]; [| apply Hfiles, Hrow].
      simpl. rewrite Hframe, Hdisk; [apply lookup_insert_eq |].
      intros row Hrow E. unfold os_path_join in E. apply app_inv_head in E.
      injection E as E. apply Hf. rewrite E. apply list_elem_of_fmap. eauto.
    + intros k Hk. rewrite Hframe, Hdisk.
      * apply lookup_insert_ne. intros E. exact (Hk (n, s, f) ltac:(left) (eq_sym E)).
      * intros row Hrow. apply Hk. right. exact Hrow.
Qed.

Lemma render_loop_total `{Pillow} (source_img : image) (out : path)
    (rows : list (Z * Z * string)) (w : world) :
  node_at (disk w) out = Some Dir ->
  (forall row, row ∈ rows -> node_at (disk w) (os_path_join out [row.2]) <> Some Dir) ->
  exists w',
    for_each rows (fun '(size_, scale, filename) =>
      create_icon source_img (os_path_join out [filename]) size_ scale) w = (Ret tt, w').
Proof.
  revert w. induction rows as [| [[n s] f] rows IH]; intros w Hout Hfiles; simpl.
  - eexists. reflexivity.
  - assert (Hw : writable (disk w) (os_path_join out [f])).
    { split; [apply (Hfiles (n, s, f)); left | rewrite dirname_join; exact Hout]. }
    rewrite (bind_Ret _ _ _ _ _ (create_icon_ok source_img _ n s w Hw)).
    apply IH; cbn [say set_disk disk].
    + destruct out as [| c out]; [reflexivity |].
      cbn [node_at] in *. rewrite lookup_insert_ne; [exact Hout |].
      apply (join_not_parent (c :: out) f).
    + intros row Hrow. rewrite node_at_lookup by apply join_nonempty.
      destruct (decide (os_path_join out [f] = os_path_join out [row.2])) as [<- | Hne].
      * rewrite lookup_insert_eq. discriminate.
      * rewrite lookup_insert_ne by exact Hne.
        rewrite <- node_at_lookup by apply join_nonempty. apply Hfiles. right. exact Hrow.
Qed.

(** ** Paths below the script directory *)

Lemma depth_lookup (sd rest : path) : (sd ++ rest) !! length sd = rest !! 0%nat.
Proof. rewrite lookup_app_r by lia. rewrite Nat.sub_diag. reflexivity. Qed.

Lemma apart_under (sd : path) (c : string) (rest : path) :
  c <> "branding" -> c <> "OfflineCinema.app" -> apart sd (sd ++ c :: rest).
Proof.
  intros H1 H2. unfold apart. rewrite depth_lookup. simpl. split; congruence.
Qed.

Lemma apart_prefix (sd pre suf : path) : apart sd (pre ++ suf) -> apart sd pre.
Proof.
  intros [H1 H2]. split; intros E; [apply H1 | apply H2];
    apply lookup_app_l_Some; exact E.
Qed.

Lemma not_apart_below (sd sd' : path) (c : string) (rest k : path) :
  length sd' = length sd ->
  c = "branding" \/ c = "OfflineCinema.app" ->
  (sd' ++ c :: rest) `prefix_of` k -> ~ apart sd k.
Proof.
  intros Hlen Hc [more ->] [H1 H2].
  assert (E : ((sd' ++ c :: rest) ++ more) !! length sd = Some c).
  { rewrite <- app_assoc, <- Hlen, depth_lookup. reflexivity. }
  destruct Hc as [-> | ->]; [apply H1 | apply H2]; exact E.
Qed.

Lemma source_path_apart (sd : path) : apart sd (source_path sd).
Proof. apply apart_under; discriminate. Qed.

Lemma output_dir_apart (sd : path) (rest : path) : apart sd (output_dir sd ++ rest).
Proof.
  unfold output_dir, os_path_join. rewrite <- app_assoc. apply apart_under; discriminate.
Qed.

Lemma source_not_output (sd : path) (rest : path) : source_path sd <> output_dir sd ++ rest.
Proof.
  unfold source_path, output_dir, os_path_join. rewrite <- app_assoc.
  intros E. apply app_inv_head in E. discriminate.
Qed.

Lemma output_prefix_not_file (sd pre suf : path) (f : string) :
  output_dir sd = pre ++ suf -> pre <> os_path_join (output_dir sd) [f].
Proof.
  intros E Hpre. apply (f_equal length) in E, Hpre. unfold os_path_join in Hpre.
  rewrite !length_app in *. simpl in Hpre. lia.
Qed.

Lemma ICON_SIZES_names : NoDup (ICON_SIZES.*2).
Proof. compute_done. Qed.

Lemma contents_not_bitmap (out : path) (row : Z * Z * string) :
  row ∈ ICON_SIZES -> os_path_join out ["Contents.json"] <> os_path_join out [row.2].
Proof.
  intros Hrow E. unfold os_path_join in E. apply app_inv_head in E. injection E as E.
  assert (Hin : "Contents.json" ∈ ICON_SIZES.*2)
    by (rewrite E; apply list_elem_of_fmap; eauto).
  assert (Hout : "Contents.json" ∉ ICON_SIZES.*2) by compute_done.
  exact (Hout Hin).
Qed.

(** ** The first stretch of [main] *)

Lemma print_inv (l : line) (w : world) (a : unit) w' :
  print l w = (Ret a, w') -> forallb (printable w) l = true /\ w' = say w l.
Proof.
  unfold print, say. destruct (forallb _ l); intros E; inversion E. split; reflexivity.
Qed.

Ltac inv_bind E :=
  let a := fresh "a" in
  let wi := fresh "wi" in
  let E1 := fresh "E" in
  apply bind_inv_Ret in E as (a & wi & E1 & E);
  try (apply print_inv in E1 as [_ ->]).

Lemma Image_open_inv (p : path) (w : world) (im : image) (w' : world) :
  Image_open p w = (Ret im, w') ->
  w' = w /\ exists fmt, node_at (disk w) p = Some (File (ImageFile fmt im)).
Proof.
  unfold Image_open. destruct (node_at (disk w) p) as [[| [fmt im0 | |]]|];
    intros E; inversion E; subst. split; [reflexivity | eauto].
Qed.

Lemma update_contents_json_inv (out : path) (w w' : world) :
  update_contents_json out w = (Ret tt, w') ->
  disk w' = <[os_path_join out ["Contents.json"] := File (JsonFile contents 2)]> (disk w).
Proof.
  unfold update_contents_json, json_dump_to. cbv zeta. intros E.
  apply bind_inv_Ret in E as ([] & wa & Ewrite & Eprint).
  destruct (write_file_inv _ _ _ _ _ Ewrite) as [(_ & -> & _) | (e & He & _)];
    [| discriminate].
  inversion Eprint; subst. reflexivity.
Qed.

Lemma source_not_output_prefix (sd pre suf : path) :
  output_dir sd = pre ++ suf -> source_path sd <> pre.
Proof.
  intros E <-. unfold source_path, output_dir, os_path_join in E.
  rewrite <- app_assoc in E. apply app_inv_head in E. discriminate.
Qed.

Lemma source_path_nonempty (sd : path) : source_path sd <> [].
Proof. unfold source_path, os_path_join. destruct sd; discriminate. Qed.

Lemma render_and_manifest_inv `{Pillow} (sd : path) (w w1 : world) :
  render_and_manifest sd w = (Ret tt, w1) ->
  exists fmt im,
    disk w !! source_path sd = Some (File (ImageFile fmt im)) /\
    disk w1 !! source_path sd = Some (File (ImageFile fmt im)) /\
    (forall pre suf, output_dir sd = pre ++ suf -> pre <> [] -> disk w1 !! pre = Some Dir) /\
    (forall row, row ∈ ICON_SIZES ->
       disk w1 !! os_path_join (output_dir sd) [row.2] =
         Some (File (ImageFile "PNG" (rendered (prepared im) row.1.1 row.1.2)))) /\
    disk w1 !! contents_path sd = Some (File (JsonFile contents 2)).
Proof.
  unfold render_and_manifest. intros E.
  inv_bind E. do 6 inv_bind E. inv_bind E. do 3 inv_bind E. inv_bind E.
  unfold os_makedirs in E0.
  destruct (makedirs_from [] (output_dir sd) (disk w)) as [r d0] eqn:Emk.
  inversion E0; subst r wi. clear E0. destruct a.
  apply Image_open_inv in E1 as [-> [fmt Hsrc]]. cbn [say set_disk disk] in Hsrc.
  rewrite node_at_lookup in Hsrc by apply source_path_nonempty.
  destruct a10. apply (render_loop_inv _ _ _ _ _ ICON_SIZES_names) in E2 as [Hfiles Hframe].
  cbn [say set_disk disk] in Hframe.
  apply update_contents_json_inv in E.
  exists fmt, a6. rewrite E. unfold contents_path.
  split; [| split; [| split; [| split]]].
  - rewrite <- Hsrc. symmetry. apply (makedirs_from_other _ _ _ _ _ Emk).
    intros pre suf Hsplit _. simpl. apply (source_not_output_prefix _ _ _ Hsplit).
  - rewrite lookup_insert_ne by (intros E'; exact (source_not_output sd _ (eq_sym E'))).
    rewrite Hframe; [exact Hsrc |]. intros row _. apply source_not_output.
  - intros pre suf Hsplit Hpre.
    rewrite lookup_insert_ne
      by (intros E'; exact (output_prefix_not_file sd pre suf _ Hsplit (eq_sym E'))).
    rewrite Hframe by (intros row _; apply (output_prefix_not_file sd pre suf _ Hsplit)).
    apply (makedirs_from_dirs [] _ _ _ Emk pre suf Hsplit Hpre).
  - intros row Hrow. rewrite lookup_insert_ne by apply contents_not_bitmap, Hrow.
    apply Hfiles, Hrow.
  - apply lookup_insert_eq.
Qed.

Lemma render_and_manifest_total `{Pillow} (sd : path) (w : world) (fmt : string) (im : image) :
  (exists d0, makedirs_from [] (output_dir sd) (disk w) = (Ret tt, d0)) ->
  disk w !! source_path sd = Some (File (ImageFile fmt im)) ->
  (forall p, p ∈ output_files sd -> disk w !! p <> Some Dir) ->
  exists w1, render_and_manifest sd w = (Ret tt, w1).
Proof.
  intros [d0 Emk] Hsrc Hfiles. unfold render_and_manifest.
  assert (Emk' : os_makedirs (output_dir sd) w = (Ret tt, set_disk w d0))
    by (unfold os_makedirs; rewrite Emk; reflexivity).
  rewrite (bind_Ret _ _ _ _ _ Emk').
  rewrite !bind_print by reflexivity.
  assert (Hother : forall f, d0 !! os_path_join (output_dir sd) [f]
                             = disk w !! os_path_join (output_dir sd) [f]).
  { intros f. apply (makedirs_from_other _ _ _ _ _ Emk).
    intros pre suf Hsplit _ E. exact (output_prefix_not_file sd pre suf f Hsplit (eq_sym E)). }
  assert (Hopen : forall l1 l2 l3 l4 l5 l6,
             Image_open (source_path sd)
               (say (say (say (say (say (say (set_disk w d0) l1) l2) l3) l4) l5) l6) =
             (Ret im, say (say (say (say (say (say (set_disk w d0) l1) l2) l3) l4) l5) l6)).
  { intros. unfold Image_open. cbn [say set_disk disk].
    rewrite node_at_lookup by apply source_path_nonempty.
    rewrite (makedirs_from_keeps _ _ _ _ _ Emk _ _ Hsrc). reflexivity. }
  rewrite (bind_Ret _ _ _ _ _ (Hopen _ _ _ _ _ _)).
  rewrite !bind_print by reflexivity.
  match goal with |- context [bind (for_each ICON_SIZES ?body) _ ?w0] =>
    destruct (render_loop_total (crop_to_square (convert im "RGBA")) (output_dir sd)
                ICON_SIZES w0) as [wl El] end.
  { cbn [say set_disk disk].
    destruct (output_dir sd) as [| c out] eqn:Eout; [reflexivity |].
    cbn [node_at]. apply (makedirs_from_dirs [] _ _ _ Emk (c :: out) []);
      [rewrite app_nil_r; reflexivity | discriminate]. }
  { intros row Hrow. cbn [say set_disk disk].
    rewrite node_at_lookup by apply join_nonempty. rewrite Hother.
    apply Hfiles. unfold output_files. apply elem_of_app. left.
    apply list_elem_of_fmap. exists row. split; [reflexivity | exact Hrow]. }
  rewrite (bind_Ret _ _ _ _ _ El).
  eexists. apply update_contents_json_ok.
  apply (render_loop_inv _ _ _ _ _ ICON_SIZES_names) in El as [_ Hframe].
  cbn [say set_disk disk] in Hframe.
  assert (Hcp : disk wl !! os_path_join (output_dir sd) ["Contents.json"]
                = disk w !! os_path_join (output_dir sd) ["Contents.json"]).
  { rewrite Hframe by (intros row Hrow; apply contents_not_bitmap, Hrow). apply Hother. }
  split.
  - rewrite node_at_lookup by apply join_nonempty. rewrite Hcp.
    apply Hfiles. unfold output_files. apply elem_of_app. right. left.
  - rewrite dirname_join.
    destruct (output_dir sd) as [| c out] eqn:Eout; [reflexivity |].
    cbn [node_at]. rewrite Hframe.
    + apply (makedirs_from_dirs [] _ _ _ Emk (c :: out) []);
        [rewrite app_nil_r; reflexivity | discriminate].
    + intros row _. rewrite <- Eout. intros E. exact (join_not_parent _ _ (eq_sym E)).
Qed.

(** ** The last stretches of [main] *)


Lemma Keeps_package (sd : path) : Keeps (apart sd) (package sd).
Proof.
  unfold package.
  apply Keeps_bind; [apply Keeps_os_makedirs | intros _].
  apply Keeps_bind; [apply Keeps_print | intros _].
  apply Keeps_bind; [apply Keeps_print | intros _].
  apply Keeps_generate_icns.
  - intros k Hk. rewrite iconset_of_branding in Hk.
    eapply not_apart_below; [| left; reflexivity | exact Hk].
    unfold path_replace. apply length_fmap.
  - apply (not_apart_below sd sd "branding" ["AppIcon.icns"]); [| left |]; reflexivity.
Qed.

Lemma Keeps_copy_to_bundle (sd : path) : Keeps (apart sd) (copy_to_bundle sd).
Proof.
  unfold copy_to_bundle. cbv zeta.
  apply Keeps_bind; [apply Keeps_os_path_exists | intros found].
  apply Keeps_if; [| apply Keeps_ret].
  apply Keeps_bind; [| intros _; apply Keeps_print].
  apply Keeps_shutil_copy2. intros k Hk.
  apply (not_apart_below sd sd "OfflineCinema.app" ["Contents"; "Resources"; "AppIcon.icns"]);
    [reflexivity | right; reflexivity | exact Hk].
Qed.

Lemma Keeps_farewell K : Keeps K farewell.
Proof.
  unfold farewell. repeat (apply Keeps_bind; [apply Keeps_print | intros _]).
  apply Keeps_ret.
Qed.

Lemma Keeps_after_rendering (sd : path) :
  Keeps (apart sd) (package sd ;; copy_to_bundle sd ;; farewell).
Proof.
  apply Keeps_bind; [apply Keeps_package | intros _].
  apply Keeps_bind; [apply Keeps_copy_to_bundle | intros _].
  apply Keeps_farewell.
Qed.

Lemma output_files_apart (sd : path) (p : path) : p ∈ output_files sd -> apart sd p.
Proof.
  unfold output_files, contents_path, os_path_join. intros Hp.
  apply elem_of_app in Hp as [Hp | Hp].
  - apply list_elem_of_fmap in Hp as (row & -> & _). apply output_dir_apart.
  - apply list_elem_of_singleton in Hp as ->. apply output_dir_apart.
Qed.

Lemma main_source_missing `{Pillow} (sd : path) (w : world) :
  node_at (disk w) (source_path sd) = None ->
  main sd w = (Ret 1, say w [Str "Error: Source icon not found at "; Path (source_path sd)]).
Proof.
  intros Hsrc. rewrite main_stages. erewrite bind_Ret by apply os_path_exists_run.
  rewrite exists_false by exact Hsrc. reflexivity.
Qed.

Lemma main_inv `{Pillow} (sd : path) (w w' : world) (r : outcome Z) :
  main sd w = (r, w') -> r <> Ret 1 ->
  node_at (disk w) (source_path sd) <> None /\
  main sd w = (render_and_manifest sd ;; package sd ;; copy_to_bundle sd ;; farewell) w.
Proof.
  intros E Hr.
  assert (Hsrc : node_at (disk w) (source_path sd) <> None).
  { intros Hnone. rewrite (main_source_missing sd w Hnone) in E.
    inversion E; subst. contradiction. }
  split; [exact Hsrc | apply main_from_source, Hsrc].
Qed.

Lemma outputs_after_rendering `{Pillow} (sd : path) (w wf : world) r w' :
  render_and_manifest sd w = (Ret tt, wf) ->
  (package sd ;; copy_to_bundle sd ;; farewell) wf = (r, w') ->
  exists fmt im,
    disk w !! source_path sd = Some (File (ImageFile fmt im)) /\
    disk w' !! source_path sd = Some (File (ImageFile fmt im)) /\
    (forall pre suf, output_dir sd = pre ++ suf -> pre <> [] -> disk w' !! pre = Some Dir) /\
    (forall row, row ∈ ICON_SIZES ->
       disk w' !! os_path_join (output_dir sd) [row.2] =
         Some (File (ImageFile "PNG" (rendered (prepared im) row.1.1 row.1.2)))) /\
    disk w' !! contents_path sd = Some (File (JsonFile contents 2)).
Proof.
  intros Hfront Hback.
  destruct (render_and_manifest_inv sd w wf Hfront)
    as (fmt & im & Hsrc & Hsrc' & Hdirs & Hfiles & Hman).
  pose proof (Keeps_after_rendering sd _ _ _ Hback) as Hkeep.
  exists fmt, im. split; [exact Hsrc |].
  split; [apply Hkeep; [apply source_path_apart | exact Hsrc'] |].
  split; [| split].
  - intros pre suf Hsplit Hpre. apply Hkeep; [| eapply Hdirs; eassumption].
    apply (apart_prefix sd pre suf). rewrite <- Hsplit.
    rewrite <- (app_nil_r (output_dir sd)). apply output_dir_apart.
  - intros row Hrow. apply Hkeep; [apply output_dir_apart | apply Hfiles, Hrow].
  - apply Hkeep; [apply output_dir_apart | exact Hman].
Qed.

(** ** Running twice *)

(** C9.  After a run that ended with status 0 the source picture is still
    the file it was; a second run on the disk the first one left renders
    again without raising, and once [main] is over, however its packaging
    and copy went, each of the ten bitmap paths and the manifest path
    holds the very file it held after the first run. *)
Theorem rerun_same_outputs `{Pillow} (script_dir : path) (w w1 : world) :
  main script_dir w = (Ret 0, w1) ->
  disk w1 !! source_path script_dir = disk w !! source_path script_dir /\
  exists wr r w2,
    render_and_manifest script_dir w1 = (Ret tt, wr) /\
    main script_dir w1 = (r, w2) /\
    forall p, p ∈ output_files script_dir ->
      exists c, disk w1 !! p = Some (File c) /\ disk w2 !! p = Some (File c).
Proof.
  intros E.
  destruct (main_inv script_dir w w1 (Ret 0) E ltac:(discriminate)) as [Hsrc Hmain].
  rewrite Hmain in E. apply bind_inv_Ret in E as ([] & wf & Hfront & Hback).
  destruct (outputs_after_rendering script_dir w wf _ _ Hfront Hback)
    as (fmt & im & Hs & Hs1 & Hdirs1 & Hfiles1 & Hman1).
  split; [rewrite Hs, Hs1; reflexivity |].
  assert (Hsrc1 : node_at (disk w1) (source_path script_dir) <> None).
  { rewrite node_at_lookup by apply source_path_nonempty. rewrite Hs1. discriminate. }
  destruct (render_and_manifest_total script_dir w1 fmt im) as [wr Hfront2].
  { exists (disk w1). apply makedirs_from_present. exact Hdirs1. }
  { exact Hs1. }
  { intros p Hp. unfold output_files in Hp. apply elem_of_app in Hp as [Hp | Hp].
    - apply list_elem_of_fmap in Hp as (row & -> & Hrow). rewrite (Hfiles1 row Hrow).
      discriminate.
    - apply list_elem_of_singleton in Hp as ->. rewrite Hman1. discriminate. }
  destruct ((package script_dir ;; copy_to_bundle script_dir ;; farewell) wr)
    as [r w2] eqn:Hback2.
  exists wr, r, w2. split; [exact Hfront2 |]. split.
  { rewrite (main_from_source script_dir w1 Hsrc1).
    rewrite (bind_Ret _ _ _ _ _ Hfront2). exact Hback2. }
  destruct (outputs_after_rendering script_dir w1 wr _ _ Hfront2 Hback2)
    as (fmt2 & im2 & Hs2 & _ & _ & Hfiles2 & Hman2).
  rewrite Hs1 in Hs2. injection Hs2 as <- <-.
  intros p Hp. unfold output_files in Hp. apply elem_of_app in Hp as [Hp | Hp].
  - apply list_elem_of_fmap in Hp as (row & -> & Hrow).
    eexists. split; [apply Hfiles1, Hrow | apply Hfiles2, Hrow].
  - apply list_elem_of_singleton in Hp as ->.
    eexists. split; [exact Hman1 | exact Hman2].
Qed.

Lemma rerun_same_outputs_witness :
  (@main nearest_pillow sample_dir (machine fresh_disk (Some packing_tool))).1 = Ret 0 /\
  exists wr r w2,
    @render_and_manifest nearest_pillow sample_dir
      (@main nearest_pillow sample_dir (machine fresh_disk (Some packing_tool))).2
      = (Ret tt, wr) /\
    @main nearest_pillow sample_dir
      (@main nearest_pillow sample_dir (machine fresh_disk (Some packing_tool))).2
      = (r, w2) /\
    forall p, p ∈ output_files sample_dir ->
      exists c,
        disk (@main nearest_pillow sample_dir
                (machine fresh_disk (Some packing_tool))).2 !! p = Some (File c) /\
        disk w2 !! p = Some (File c).
Proof.
  assert (Hret : (@main nearest_pillow sample_dir
                    (machine fresh_disk (Some packing_tool))).1 = Ret 0)
    by (vm_compute; reflexivity).
  split; [exact Hret |].
  exact (proj2 (@rerun_same_outputs nearest_pillow sample_dir _ _ (pair_eta _ _ Hret))).
Defined.

(** ** The renderer as the entry point drives it *)

Lemma prepared_mode `{Pillow} (im : image) : mode (prepared im) = "RGBA".
Proof.
  unfold prepared. rewrite crop_to_square_mode. unfold convert.
  destruct (decide _) as [E |]; [exact E | reflexivity].
Qed.

Lemma create_icon_composite `{Pillow} (source_img : image) output_path size_ scale w :
  mode source_img = "RGBA" ->
  create_icon source_img output_path size_ scale w =
    composite_icon source_img output_path size_ scale w.
Proof.
  intros Hm. unfold create_icon, composite_icon. cbv zeta.
  destruct (decide _) as [| Hne]; [reflexivity |]. contradiction.
Qed.

(** C10.  [main] hands every call of the renderer the source converted
    to RGBA and then cropped: that picture, and its resized copy inside
    [create_icon], are in mode RGBA, so [create_icon] and the rendering
    loop run as their variant without the mode test, which always pastes
    over the black background; the branch that converts to RGB is never
    taken.  Whenever the rendering stretch of a run completes, and at the
    end of a run with status 0, each of the ten bitmaps on disk is such a
    paste of the resized source. *)
Theorem main_renders_by_compositing `{Pillow} (script_dir : path) :
  (forall im size_ scale,
     let actual_size := size_ * scale in
     let resized := resize (prepared im) (actual_size, actual_size) LANCZOS in
     mode (prepared im) = "RGBA" /\
     mode resized = "RGBA" /\
     rendered (prepared im) size_ scale =
       paste (Image_new "RGB" (actual_size, actual_size) (0, 0, 0)) resized (0, 0) resized) /\
  (forall im output_path size_ scale w,
     create_icon (prepared im) output_path size_ scale w =
       composite_icon (prepared im) output_path size_ scale w) /\
  (forall im rows w,
     for_each rows (fun '(size_, scale, filename) =>
       create_icon (prepared im) (os_path_join (output_dir script_dir) [filename])
                   size_ scale) w =
     for_each rows (fun '(size_, scale, filename) =>
       composite_icon (prepared im) (os_path_join (output_dir script_dir) [filename])
                      size_ scale) w) /\
  (forall w wf,
     render_and_manifest script_dir w = (Ret tt, wf) ->
     exists fmt im,
       disk w !! source_path script_dir = Some (File (ImageFile fmt im)) /\
       forall row, row ∈ ICON_SIZES ->
         let actual_size := row.1.1 * row.1.2 in
         let resized := resize (prepared im) (actual_size, actual_size) LANCZOS in
         disk wf !! os_path_join (output_dir script_dir) [row.2] =
           Some (File (ImageFile "PNG"
                   (paste (Image_new "RGB" (actual_size, actual_size) (0, 0, 0))
                          resized (0, 0) resized)))) /\
  (forall w w',
     main script_dir w = (Ret 0, w') ->
     exists fmt im,
       disk w !! source_path script_dir = Some (File (ImageFile fmt im)) /\
       forall row, row ∈ ICON_SIZES ->
         let actual_size := row.1.1 * row.1.2 in
         let resized := resize (prepared im) (actual_size, actual_size) LANCZOS in
         disk w' !! os_path_join (output_dir script_dir) [row.2] =
           Some (File (ImageFile "PNG"
                   (paste (Image_new "RGB" (actual_size, actual_size) (0, 0, 0))
                          resized (0, 0) resized)))).
Proof.
  assert (Hrendered : forall im size_ scale,
            rendered (prepared im) size_ scale =
              paste (Image_new "RGB" (size_ * scale, size_ * scale) (0, 0, 0))
                    (resize (prepared im) (size_ * scale, size_ * scale) LANCZOS) (0, 0)
                    (resize (prepared im) (size_ * scale, size_ * scale) LANCZOS)).
  { intros im size_ scale. unfold rendered. cbv zeta.
    destruct (decide _) as [| Hne]; [reflexivity |].
    exfalso. apply Hne. apply prepared_mode. }
  split; [| split; [| split; [| split]]].
  - intros im size_ scale actual_size resized.
    split; [apply prepared_mode |]. split; [apply prepared_mode | apply Hrendered].
  - intros. apply create_icon_composite, prepared_mode.
  - intros im rows. induction rows as [| [[n s] f] rows IH]; intros w; [reflexivity |].
    simpl. unfold bind. rewrite (create_icon_composite _ _ _ _ _ (prepared_mode im)).
    destruct (composite_icon _ _ _ _ w) as [[[] | e] wa]; [apply IH | reflexivity].
  - intros w wf Hfront.
    destruct (render_and_manifest_inv script_dir w wf Hfront)
      as (fmt & im & Hsrc & _ & _ & Hfiles & _).
    exists fmt, im. split; [exact Hsrc |].
    intros row Hrow. cbv zeta. rewrite <- Hrendered. apply Hfiles, Hrow.
  - intros w w' E.
    destruct (main_inv script_dir w w' (Ret 0) E ltac:(discriminate)) as [Hsrc Hmain].
    rewrite Hmain in E. apply bind_inv_Ret in E as ([] & wf & Hfront & Hback).
    destruct (outputs_after_rendering script_dir w wf _ _ Hfront Hback)
      as (fmt & im & Hs & _ & _ & Hfiles & _).
    exists fmt, im. split; [exact Hs |].
    intros row Hrow. cbv zeta. rewrite <- Hrendered. apply Hfiles, Hrow.
Qed.

Lemma main_renders_by_compositing_witness :
  (@main nearest_pillow sample_dir (machine fresh_disk None)).1 = Ret 0 /\
  exists fmt im,
    disk (machine fresh_disk None) !! source_path sample_dir =
      Some (File (ImageFile fmt im)) /\
    disk (@main nearest_pillow sample_dir (machine fresh_disk None)).2
      !! os_path_join (output_dir sample_dir) ["icon_128x128.png"] =
      Some (File (ImageFile "PNG"
              (paste (Image_new "RGB" (128, 128) (0, 0, 0))
                     (@resize nearest_pillow (@prepared nearest_pillow im) (128, 128) LANCZOS)
                     (0, 0)
                     (@resize nearest_pillow (@prepared nearest_pillow im) (128, 128) LANCZOS)))).
Proof.
  assert (Hret : (@main nearest_pillow sample_dir (machine fresh_disk None)).1 = Ret 0)
    by (vm_compute; reflexivity).
  split; [exact Hret |].
  destruct (proj2 (proj2 (proj2 (proj2
              (@main_renders_by_compositing nearest_pillow sample_dir))))
              _ _ (pair_eta _ _ Hret)) as (fmt & im & Hsrc & Hfiles).
  exists fmt, im. split; [exact Hsrc |].
  apply (Hfiles (128, 1, "icon_128x128.png")). compute_done.
Defined.

(** * Further properties of the script *)

(** ** What a computation can change *)

Lemma changes_only_refl T d : changes_only T d d.
Proof. intros k _. reflexivity. Qed.

Lemma changes_only_trans T d1 d2 d3 :
  changes_only T d1 d2 -> changes_only T d2 d3 -> changes_only T d1 d3.
Proof. intros H12 H23 k Hk. rewrite (H23 k Hk). apply H12, Hk. Qed.

Lemma Touches_weaken {A} (T T' : path -> Prop) (m : M A) :
  (forall k, T k -> T' k) -> Touches T m -> Touches T' m.
Proof. intros Hsub Hm w r w' E k Hk. apply (Hm w r w' E). intros Hin. apply Hk, Hsub, Hin. Qed.

Lemma Touches_ret {A} T (a : A) : Touches T (ret a).
Proof. intros w r w' E. inversion E. apply changes_only_refl. Qed.

Lemma Touches_bind {A B} T (m : M A) (k : A -> M B) :
  Touches T m -> (forall a, Touches T (k a)) -> Touches T (bind m k).
Proof.
  intros Hm Hk w r w'. unfold bind.
  destruct (m w) as [[a | e] w1] eqn:E; intros E'.
  - eapply changes_only_trans; [eapply Hm, E | eapply Hk, E'].
  - inversion E'; subst. eapply Hm, E.
Qed.

Lemma Touches_try_except {A} T (body : M A) (handler : exn -> M A) :
  Touches T body -> (forall e, Touches T (handler e)) -> Touches T (try_except body handler).
Proof.
  intros Hb Hh w r w'. unfold try_except.
  destruct (body w) as [[a | e] w1] eqn:E; intros E'.
  - inversion E'; subst. eapply Hb, E.
  - eapply changes_only_trans; [eapply Hb, E | eapply Hh, E'].
Qed.

Lemma Touches_for_each {A} T (xs : list A) (body : A -> M unit) :
  (forall x, x ∈ xs -> Touches T (body x)) -> Touches T (for_each xs body).
Proof.
  induction xs as [| x xs IH]; intros Hb; simpl.
  - apply Touches_ret.
  - apply Touches_bind.
    + apply Hb. left.
    + intros _. apply IH. intros y Hy. apply Hb. right. exact Hy.
Qed.

Lemma Touches_if {A} T (b : bool) (m1 m2 : M A) :
  Touches T m1 -> Touches T m2 -> Touches T (if b then m1 else m2).
Proof. destruct b; auto. Qed.

Lemma Touches_print T l : Touches T (print l).
Proof.
  intros w r w' E.
  destruct (print_cases l w) as [E' | E']; rewrite E' in E; inversion E;
    apply changes_only_refl.
Qed.

Lemma Touches_os_path_exists T p : Touches T (os_path_exists p).
Proof. intros w r w' E. inversion E. apply changes_only_refl. Qed.

Lemma Touches_Image_open T p : Touches T (Image_open p).
Proof.
  intros w r w'. unfold Image_open.
  destruct (node_at (disk w) p) as [[| [] ]|]; intros E; inversion E; apply changes_only_refl.
Qed.

Lemma Touches_write_file T p c : T p -> Touches T (write_file p c).
Proof.
  intros Hp w r w' E.
  destruct (write_file_inv _ _ _ _ _ E) as [(_ & -> & _) | (e & _ & ->)].
  - intros k Hk. simpl. apply lookup_insert_ne. intros <-. exact (Hk Hp).
  - apply changes_only_refl.
Qed.

Lemma Touches_os_makedirs T p :
  (forall pre suf, p = pre ++ suf -> pre <> [] -> T pre) -> Touches T (os_makedirs p).
Proof.
  intros Hp w r w'. unfold os_makedirs.
  destruct (makedirs_from [] p (disk w)) as [r0 d0] eqn:E. intros E'. inversion E'; subst.
  intros k Hk. simpl. apply (makedirs_from_other _ _ _ _ _ E).
  intros pre suf Hsplit Hpre ->. simpl in Hk. exact (Hk (Hp pre suf Hsplit Hpre)).
Qed.

Lemma Touches_shutil_copy2 T src dst :
  (forall k, dst `prefix_of` k -> T k) -> Touches T (shutil_copy2 src dst).
Proof.
  intros Hdst w r w'. unfold shutil_copy2.
  destruct (node_at (disk w) src) as [[| c]|];
    try (intros E; inversion E; apply changes_only_refl).
  destruct (decide _); [intros E; inversion E; apply changes_only_refl |].
  apply Touches_write_file.
  destruct (node_at (disk w) dst) as [[|]|]; apply Hdst;
    [apply prefix_app_r | | ]; reflexivity.
Qed.

Lemma Touches_shutil_rmtree T p :
  (forall k, p `prefix_of` k -> T k) -> Touches T (shutil_rmtree p).
Proof.
  intros Hp w r w'. unfold shutil_rmtree.
  destruct (node_at (disk w) p) as [[| c]|]; intros E; inversion E; subst;
    try apply changes_only_refl.
  intros k Hk. simpl.
  destruct (disk w !! k) as [n |] eqn:Ek.
  - apply map_lookup_filter_Some. split; [exact Ek |]. simpl. intros Hpre.
    exact (Hk (Hp k Hpre)).
  - apply map_lookup_filter_None. left. exact Ek.
Qed.

Lemma Touches_subprocess_run T (iconset output : path) :
  T output ->
  Touches T (subprocess_run [Str "iconutil"; Str "-c"; Str "icns"; Path iconset;
                             Str "-o"; Path output]).
Proof.
  intros Ho w r w'. unfold subprocess_run. simpl.
  destruct (iconutil w) as [run |]; [| intros E; inversion E; apply changes_only_refl].
  destruct (run (disk w) iconset output) as [result [c |]]; intros E; inversion E; subst.
  - intros k Hk. simpl. apply lookup_insert_ne. intros <-. exact (Hk Ho).
  - apply changes_only_refl.
Qed.

(** ** The cropper, again *)

Lemma crop_to_square_size (img : image) :
  size (crop_to_square img) =
    (Z.min (size img).1 (size img).2, Z.min (size img).1 (size img).2).
Proof.
  rewrite crop_to_square_unfold. destruct (decide _) as [Heq | Hne].
  - destruct (size img) as [w h]. simpl in *. subst h. rewrite Z.min_id. reflexivity.
  - cbv zeta. unfold crop. cbn [size]. f_equal; lia.
Qed.

(** Cropping is idempotent: what [crop_to_square] returns is square, so a
    second call takes the early return and hands it back as it is. *)
Theorem crop_to_square_idempotent (img : image) :
  crop_to_square (crop_to_square img) = crop_to_square img.
Proof.
  rewrite (crop_to_square_unfold (crop_to_square img)).
  rewrite crop_to_square_size. cbn [fst snd].
  destruct (decide _); [reflexivity | contradiction].
Qed.

(** ** Compositing over black *)

Lemma BLEND8_opaque (over : Z) : 0 <= over <= 255 -> BLEND8 255 0 over = over.
Proof.
  intros Ho. pose proof (BLEND8_over_black 255 over ltac:(lia) Ho) as Hn.
  unfold nearest_255th in Hn. lia.
Qed.

Lemma BLEND8_transparent (over : Z) : BLEND8 0 0 over = 0.
Proof. unfold BLEND8. rewrite Z.mul_0_r. reflexivity. Qed.

Lemma BLEND8_darkens (mask over : Z) :
  0 <= mask <= 255 -> 0 <= over <= 255 -> 0 <= BLEND8 mask 0 over <= over.
Proof.
  intros Hm Ho. pose proof (BLEND8_over_black mask over Hm Ho) as Hn.
  unfold nearest_255th in Hn. nia.
Qed.

(** For an RGBA source, a pixel of the bitmap that [create_icon] renders
    keeps the colour of a fully opaque resized pixel, is black where the
    resized pixel is fully transparent, and in between no band is negative
    or brighter than the band of the resized pixel. *)
Theorem rendered_pixel_range `{Pillow}
    (source_img : image) (size_ scale x y : Z) :
  mode source_img = "RGBA" ->
  0 <= x < size_ * scale -> 0 <= y < size_ * scale ->
  let src := getpixel (resize source_img (size_ * scale, size_ * scale) LANCZOS) x y in
  let out := getpixel (rendered source_img size_ scale) x y in
  0 <= red src <= 255 -> 0 <= green src <= 255 -> 0 <= blue src <= 255 ->
  (alpha src = 255 -> red out = red src /\ green out = green src /\ blue out = blue src) /\
  (alpha src = 0 -> red out = 0 /\ green out = 0 /\ blue out = 0) /\
  (0 <= alpha src <= 255 ->
     0 <= red out <= red src /\ 0 <= green out <= green src /\ 0 <= blue out <= blue src).
Proof.
  intros Hm Hx Hy src out Hr Hg Hb.
  assert (Hout : out = blend_pixel (alpha src) (Pixel 0 0 0 255) src).
  { subst out src. unfold rendered. cbv zeta.
    change (mode (resize source_img (size_ * scale, size_ * scale) LANCZOS))
      with (mode source_img).
    destruct (decide _); [| contradiction].
    cbn [paste getpixel Image_new]. rewrite !Z.sub_0_r.
    rewrite !in_bounds_inside by (cbn [size Image_new resize fst snd]; lia).
    reflexivity. }
  rewrite Hout. cbn [blend_pixel red green blue].
  split; [| split].
  - intros ->. rewrite !BLEND8_opaque by assumption. auto.
  - intros ->. rewrite !BLEND8_transparent. auto.
  - intros Ha. repeat split; apply BLEND8_darkens; assumption.
Qed.

Lemma rendered_pixel_range_witness :
  let src := getpixel (@resize nearest_pillow sample_picture_alpha (16, 16) LANCZOS) 3 2 in
  let out := getpixel (@rendered nearest_pillow sample_picture_alpha 16 1) 3 2 in
  alpha src = 250 /\ red src = 150 /\ 0 <= red out <= red src.
Proof.
  cbv zeta. split; [vm_compute; reflexivity |]. split; [vm_compute; reflexivity |].
  refine (proj1 (proj2 (proj2 (@rendered_pixel_range nearest_pillow sample_picture_alpha
                   16 1 3 2 eq_refl _ _ _ _ _)) _));
    vm_compute; split; (discriminate || reflexivity).
Defined.

(** ** The packager, again *)

(** [generate_icns] returns [True] only when [iconutil] ran and exited
    with status 0; then [Created: <output>] is the last line printed, the
    staging directory was removed with all below it, and nothing else
    changed after the tool. *)
Theorem generate_icns_true_only_on_success
    (input_dir output_path : path) (w w' : world) :
  generate_icns input_dir output_path w = (Ret true, w') ->
  let iconset_path := path_replace output_path ".icns" ".iconset" in
  exists result w1,
    stage_and_run input_dir output_path w = (Ret result, w1) /\
    returncode result = 0 /\
    iconutil w1 <> None /\
    console w' = console w1 ++ [[Str "Created: "; Path output_path]] /\
    (forall k, iconset_path `prefix_of` k -> disk w' !! k = None) /\
    (forall k, ~ iconset_path `prefix_of` k -> disk w' !! k = disk w1 !! k).
Proof.
  intros E iconset_path. rewrite generate_icns_unfold in E.
  unfold try_except, bind in E.
  destruct (stage_and_run input_dir output_path w) as [[result | e] w1] eqn:Estage;
    [| inversion E].
  destruct (decide (returncode result = 0)) as [Hzero | Hnz]; [| inversion E].
  unfold print, shutil_rmtree in E.
  change (forallb (printable w1) _) with true in E.
  cbn [disk console iconutil stdout_encodes] in E.
  fold iconset_path in E.
  destruct (node_at (disk w1) iconset_path) as [[| c]|] eqn:Hdir; inversion E; subst w'.
  exists result, w1. split; [reflexivity |]. split; [exact Hzero |].
  split; [| split; [reflexivity | split]].
  - unfold stage_and_run in Estage. cbv zeta in Estage.
    apply bind_inv_Ret in Estage as ([] & wa & _ & Estage).
    apply bind_inv_Ret in Estage as ([] & wb & _ & Erun).
    unfold subprocess_run in Erun.
    destruct (iconutil wb) as [run |] eqn:Htool; [| inversion Erun].
    destruct (run (disk wb) _ output_path) as [res [c |]]; inversion Erun; subst;
      cbn [set_disk iconutil]; rewrite Htool; discriminate.
  - intros k Hk. simpl. apply map_lookup_filter_None. right.
    intros n _ Hn. apply Hn. exact Hk.
  - intros k Hk. simpl.
    destruct (disk w1 !! k) as [n |] eqn:Ek.
    + apply map_lookup_filter_Some. split; [exact Ek | exact Hk].
    + apply map_lookup_filter_None. left. exact Ek.
Qed.

Lemma generate_icns_true_only_on_success_witness :
  exists result w1,
    stage_and_run (output_dir sample_dir) (branding_icns sample_dir)
      (machine partial_disk (Some packing_tool)) = (Ret result, w1) /\
    returncode result = 0.
Proof.
  pose proof (pair_eta (generate_icns (output_dir sample_dir) (branding_icns sample_dir)
                          (machine partial_disk (Some packing_tool)))
                (Ret true) ltac:(vm_compute; reflexivity)) as Htrue.
  destruct (generate_icns_true_only_on_success _ _ _ _ Htrue)
    as (result & w1 & Hstage & Hzero & _).
  exists result, w1. split; assumption.
Defined.

(** ** The exit status *)

Lemma main_returns_0_or_1 `{Pillow} (sd : path) (w : world) (status : Z) (w' : world) :
  main sd w = (Ret status, w') -> status = 0 \/ status = 1.
Proof.
  intros E. destruct (decide (status = 1)) as [| Hne]; [right; assumption | left].
  destruct (main_inv sd w w' (Ret status) E ltac:(congruence)) as [_ Hmain].
  rewrite Hmain in E.
  apply bind_inv_Ret in E as ([] & w1 & _ & E).
  apply bind_inv_Ret in E as (ok & w2 & _ & E).
  apply bind_inv_Ret in E as ([] & w3 & _ & E).
  destruct (farewell_inv _ _ _ E) as [[Hr | Hr] _]; congruence.
Qed.

(** The exit status of the script is 0 or 1.  It is 0 exactly when
    [main] returns 0, which needs the source to exist; it is 1 when the
    source is missing and whenever an exception leaves [main]. *)
Theorem exit_status_is_0_or_1 `{Pillow} (script_dir : path) (w : world) :
  ((exit_main script_dir w).1 = 0 \/ (exit_main script_dir w).1 = 1) /\
  ((exit_main script_dir w).1 = 0 <-> (main script_dir w).1 = Ret 0) /\
  ((exit_main script_dir w).1 = 0 -> node_at (disk w) (source_path script_dir) <> None) /\
  (forall e, (main script_dir w).1 = Raise e -> (exit_main script_dir w).1 = 1).
Proof.
  unfold exit_main.
  destruct (main script_dir w) as [[status | e] w'] eqn:E; cbn [fst].
  - pose proof (main_returns_0_or_1 _ _ _ _ E) as Hs.
    split; [exact Hs |]. split; [split; congruence |]. split; [| discriminate].
    intros ->. apply (main_inv script_dir w w' (Ret 0) E). discriminate.
  - split; [right; reflexivity |]. split; [split; discriminate |].
    split; [discriminate | reflexivity].
Qed.

(** ** Footprints *)

Lemma Touches_stage_bitmap T (input_dir iconset_path : path) (names : string * string) :
  (forall k, os_path_join iconset_path [names.2] `prefix_of` k -> T k) ->
  Touches T (stage_bitmap input_dir iconset_path names).
Proof.
  intros HT. destruct names as [src_name dst_name]. unfold stage_bitmap.
  apply Touches_bind; [apply Touches_os_path_exists | intros found].
  apply Touches_if; [| apply Touches_ret]. apply Touches_shutil_copy2. exact HT.
Qed.

Lemma Touches_generate_icns (input_dir output_path : path) :
  Touches (icns_footprint output_path) (generate_icns input_dir output_path).
Proof.
  unfold generate_icns, icns_footprint. cbv zeta.
  set (iconset := path_replace output_path ".icns" ".iconset").
  assert (Hbelow : forall k, iconset `prefix_of` k ->
            k `prefix_of` iconset \/ iconset `prefix_of` k \/ k = output_path) by auto.
  apply Touches_try_except.
  - apply Touches_bind; [| intros _].
    { apply Touches_os_makedirs. intros pre suf Hsplit _. left. exists suf. exact Hsplit. }
    apply Touches_bind; [| intros _].
    { apply Touches_for_each. intros names _.
      apply (Touches_stage_bitmap _ input_dir iconset names).
      intros k Hk. apply Hbelow. etransitivity; [| exact Hk].
      apply prefix_app_r. reflexivity. }
    apply Touches_bind; [apply Touches_subprocess_run; auto | intros result].
    destruct (decide _).
    + apply Touches_bind; [apply Touches_print | intros _].
      apply Touches_bind; [apply Touches_shutil_rmtree, Hbelow | intros _].
      apply Touches_ret.
    + apply Touches_bind; [apply Touches_print | intros _]. apply Touches_ret.
  - intros e. apply Touches_bind; [apply Touches_print | intros _]. apply Touches_ret.
Qed.

(** [generate_icns] changes the disk only inside its footprint: outside
    the staging directory, the directories above it, all below it and the
    output path, every entry is after the call what it was before,
    whether the call returned [True] or [False]. *)
Theorem generate_icns_footprint (input_dir output_path : path) (w : world) (k : path) :
  ~ icns_footprint output_path k ->
  disk (generate_icns input_dir output_path w).2 !! k = disk w !! k.
Proof.
  intros Hk.
  destruct (generate_icns input_dir output_path w) as [r w'] eqn:E.
  exact (Touches_generate_icns input_dir output_path w r w' E k Hk).
Qed.

Lemma generate_icns_footprint_witness :
  ~ icns_footprint (branding_icns sample_dir)
      (os_path_join (output_dir sample_dir) ["icon_16x16.png"]) /\
  disk (generate_icns (output_dir sample_dir) (branding_icns sample_dir)
          (machine partial_disk (Some packing_tool))).2
    !! os_path_join (output_dir sample_dir) ["icon_16x16.png"] =
  Some (File (Blob "png 16")).
Proof.
  assert (Hout : ~ icns_footprint (branding_icns sample_dir)
                     (os_path_join (output_dir sample_dir) ["icon_16x16.png"])).
  { unfold icns_footprint. cbv zeta. intros [Hp | [Hp | Hp]]; revert Hp; compute_done. }
  split; [exact Hout |].
  rewrite (generate_icns_footprint _ _ _ _ Hout). vm_compute. reflexivity.
Defined.

(** The staging directory is not emptied before use: an entry that is in
    it under a name other than the ten bitmap names is still there, as it
    was, when staging is over and the tool has run. *)
Theorem staging_keeps_leftovers
    (input_dir output_path : path) (w : world) (name : string) (rest : path) :
  let iconset_path := path_replace output_path ".icns" ".iconset" in
  name ∉ icon_mapping.*2 ->
  iconset_path ++ name :: rest <> output_path ->
  disk (stage_and_run input_dir output_path w).2 !! (iconset_path ++ name :: rest) =
    disk w !! (iconset_path ++ name :: rest).
Proof.
  intros iconset_path Hname Hout.
  set (T := fun k : path =>
         k `prefix_of` iconset_path \/
         (exists d, d ∈ icon_mapping.*2 /\ os_path_join iconset_path [d] `prefix_of` k) \/
         k = output_path).
  assert (HT : Touches T (stage_and_run input_dir output_path)).
  { unfold stage_and_run. cbv zeta. fold iconset_path.
    apply Touches_bind; [| intros _].
    { apply Touches_os_makedirs. intros pre suf Hsplit _. left. exists suf. exact Hsplit. }
    apply Touches_bind; [| intros _].
    { apply Touches_for_each. intros names Hnames.
      apply (Touches_stage_bitmap _ input_dir iconset_path names).
      intros k Hk. right. left. exists names.2. split; [| exact Hk].
      apply list_elem_of_fmap. exists names. split; [reflexivity | exact Hnames]. }
    apply Touches_subprocess_run. right. right. reflexivity. }
  destruct (stage_and_run input_dir output_path w) as [r w1] eqn:E.
  apply (HT w r w1 E). intros [Hp | [(d & Hd & Hp) | Hp]].
  - apply prefix_length in Hp. rewrite length_app in Hp. simpl in Hp. lia.
  - unfold os_path_join in Hp. apply prefix_app_inv in Hp.
    destruct Hp as [more Hp]. simpl in Hp. injection Hp as -> _. exact (Hname Hd).
  - exact (Hout Hp).
Qed.

Lemma staging_keeps_leftovers_witness :
  ("notes.txt" ∉ icon_mapping.*2) /\
  disk (stage_and_run (output_dir sample_dir) (branding_icns sample_dir)
          (machine leftover_disk (Some failing_tool))).2
    !! (path_replace (branding_icns sample_dir) ".icns" ".iconset" ++ ["notes.txt"]) =
  Some (File (Blob "left over")).
Proof.
  assert (Hname : "notes.txt" ∉ icon_mapping.*2) by compute_done.
  split; [exact Hname |].
  rewrite (staging_keeps_leftovers (output_dir sample_dir) (branding_icns sample_dir)
             (machine leftover_disk (Some failing_tool)) "notes.txt" [] Hname
             ltac:(compute_done)).
  vm_compute. reflexivity.
Defined.

Lemma Touches_create_icon `{Pillow} T source_img output_path size_ scale :
  T output_path -> Touches T (create_icon source_img output_path size_ scale).
Proof.
  intros Hp. unfold create_icon, save. cbv zeta.
  apply Touches_bind; [apply Touches_write_file, Hp | intros _; apply Touches_print].
Qed.

Lemma Touches_update_contents_json T (out : path) :
  T (os_path_join out ["Contents.json"]) -> Touches T (update_contents_json out).
Proof.
  intros Hp. unfold update_contents_json, json_dump_to. cbv zeta.
  apply Touches_bind; [apply Touches_write_file, Hp | intros _; apply Touches_print].
Qed.

Lemma bitmap_in_output_files (sd : path) (row : Z * Z * string) :
  row ∈ ICON_SIZES -> os_path_join (output_dir sd) [row.2] ∈ output_files sd.
Proof.
  intros Hrow. unfold output_files. apply elem_of_app. left.
  apply list_elem_of_fmap. exists row. split; [reflexivity | exact Hrow].
Qed.

Lemma contents_in_output_files (sd : path) : contents_path sd ∈ output_files sd.
Proof. unfold output_files. apply elem_of_app. right. left. Qed.

Lemma Touches_render_and_manifest `{Pillow} (sd : path) :
  Touches (build_footprint sd) (render_and_manifest sd).
Proof.
  unfold render_and_manifest.
  apply Touches_bind; [| intros _].
  { apply Touches_os_makedirs. intros pre suf Hsplit _. left. exists suf. exact Hsplit. }
  do 6 (apply Touches_bind; [apply Touches_print | intros _]).
  apply Touches_bind; [apply Touches_Image_open | intros source_img].
  do 3 (apply Touches_bind; [apply Touches_print | intros _]).
  apply Touches_bind; [| intros _].
  { apply Touches_for_each. intros [[n s] f] Hrow. apply Touches_create_icon.
    right. left. apply (bitmap_in_output_files sd (n, s, f) Hrow). }
  apply Touches_update_contents_json. right. left. apply contents_in_output_files.
Qed.

Lemma dirname_prefix (p : path) : os_path_dirname p `prefix_of` p.
Proof.
  unfold os_path_dirname. destruct (decide (p = [])) as [-> | Hp]; [reflexivity |].
  exists [List.last p ""]. apply app_removelast_last. exact Hp.
Qed.

Lemma Touches_package (sd : path) : Touches (build_footprint sd) (package sd).
Proof.
  unfold package.
  apply Touches_bind; [| intros _].
  { apply Touches_os_makedirs. intros pre suf Hsplit _. right. right. left.
    etransitivity; [| apply dirname_prefix]. exists suf. exact Hsplit. }
  do 2 (apply Touches_bind; [apply Touches_print | intros _]).
  eapply Touches_weaken; [| apply Touches_generate_icns].
  intros k Hk. right. right. right. exact Hk.
Qed.

Lemma Touches_copy_to_bundle (sd : path) : Touches (main_footprint sd) (copy_to_bundle sd).
Proof.
  unfold copy_to_bundle. cbv zeta.
  apply Touches_bind; [apply Touches_os_path_exists | intros found].
  apply Touches_if; [| apply Touches_ret].
  apply Touches_bind; [| intros _; apply Touches_print].
  apply Touches_shutil_copy2. intros k Hk. right. exact Hk.
Qed.

Lemma Touches_farewell T : Touches T farewell.
Proof.
  unfold farewell. repeat (apply Touches_bind; [apply Touches_print | intros _]).
  apply Touches_ret.
Qed.

Lemma Touches_main `{Pillow} (sd : path) : Touches (main_footprint sd) (main sd).
Proof.
  intros w r w' E. rewrite main_stages in E. revert E.
  apply Touches_bind; [apply Touches_os_path_exists | intros found].
  destruct found; cbn [negb].
  - apply Touches_bind; [| intros _].
    { eapply Touches_weaken; [| apply Touches_render_and_manifest]. intros k Hk. left. exact Hk. }
    apply Touches_bind; [| intros _].
    { eapply Touches_weaken; [| apply Touches_package]. intros k Hk. left. exact Hk. }
    apply Touches_bind; [apply Touches_copy_to_bundle | intros _].
    apply Touches_farewell.
  - apply Touches_bind; [apply Touches_print | intros _]. apply Touches_ret.
Qed.

(** Whatever a run of [main] does and however it ends, every path outside
    its footprint holds afterwards what it held before. *)
Theorem main_changes_only_its_footprint `{Pillow} (script_dir : path) (w : world) (k : path) :
  ~ main_footprint script_dir k ->
  disk (main script_dir w).2 !! k = disk w !! k.
Proof.
  intros Hk. destruct (main script_dir w) as [r w'] eqn:E.
  exact (Touches_main script_dir w r w' E k Hk).
Qed.

Lemma source_outside_footprint (sd : path) : ~ main_footprint sd (source_path sd).
Proof.
  intros [[Hp | [Hp | [Hp | [Hp | [Hp | Hp]]]]] | Hp].
  - destruct Hp as [suf Hp]. exact (source_not_output_prefix sd _ suf Hp eq_refl).
  - unfold output_files, contents_path in Hp. apply elem_of_app in Hp as [Hp | Hp].
    + apply list_elem_of_fmap in Hp as (row & Hp & _). exact (source_not_output sd _ Hp).
    + apply list_elem_of_singleton in Hp. exact (source_not_output sd _ Hp).
  - apply prefix_length in Hp. unfold source_path, branding_icns, os_path_join in Hp.
    rewrite !length_app in Hp. simpl in Hp. lia.
  - apply prefix_length in Hp. rewrite iconset_of_branding in Hp.
    unfold source_path, path_replace, os_path_join in Hp.
    rewrite !length_app, length_fmap in Hp. simpl in Hp. lia.
  - rewrite iconset_of_branding in Hp.
    eapply not_apart_below; [| left; reflexivity | exact Hp | apply source_path_apart].
    unfold path_replace. apply length_fmap.
  - unfold source_path, branding_icns, os_path_join in Hp.
    apply app_inv_head in Hp. discriminate.
  - eapply (not_apart_below sd sd); [reflexivity | right; reflexivity | exact Hp |].
    apply source_path_apart.
Qed.

(** No run of [main] changes the source picture: however the run ends,
    the source path holds afterwards what it held before. *)
Theorem main_never_changes_source `{Pillow} (script_dir : path) (w : world) :
  disk (main script_dir w).2 !! source_path script_dir = disk w !! source_path script_dir.
Proof.
  destruct (main script_dir w) as [r w'] eqn:E.
  exact (Touches_main script_dir w r w' E _ (source_outside_footprint script_dir)).
Qed.

Lemma main_changes_only_its_footprint_witness :
  ~ main_footprint sample_dir (sample_dir ++ ["README.md"]) /\
  disk (@main nearest_pillow sample_dir (machine readme_disk None)).2
    !! (sample_dir ++ ["README.md"]) = Some (File (Blob "read me")).
Proof.
  assert (Hout : ~ main_footprint sample_dir (sample_dir ++ ["README.md"])).
  { unfold main_footprint, build_footprint, icns_footprint. cbv zeta.
    intros [[Hp | [Hp | [Hp | [Hp | [Hp | Hp]]]]] | Hp]; revert Hp; compute_done. }
  split; [exact Hout |].
  rewrite (@main_changes_only_its_footprint nearest_pillow _ _ _ Hout).
  vm_compute. reflexivity.
Defined.

(** ** A source that is no picture *)

Lemma makedirs_from_files above below d r d' :
  makedirs_from above below d = (r, d') ->
  forall k c, d' !! k = Some (File c) -> d !! k = Some (File c).
Proof.
  revert above d. induction below as [| x below IH]; intros above d E k c Hk; simpl in E.
  - inversion E; subst. exact Hk.
  - destruct (d !! (above ++ [x])) as [[| c0]|] eqn:Eq.
    + eapply IH; eassumption.
    + inversion E; subst. exact Hk.
    + pose proof (IH _ _ E k c Hk) as Hk1.
      destruct (decide (above ++ [x] = k)) as [<- | Hne].
      * rewrite lookup_insert_eq in Hk1. discriminate.
      * rewrite lookup_insert_ne in Hk1 by exact Hne. exact Hk1.
Qed.

Lemma render_and_manifest_unreadable `{Pillow} (sd : path) (w : world) (n : node) :
  disk w !! source_path sd = Some n ->
  (forall fmt im, n <> File (ImageFile fmt im)) ->
  exists e w',
    render_and_manifest sd w = (Raise e, w') /\
    (forall k c, disk w' !! k = Some (File c) <-> disk w !! k = Some (File c)) /\
    (e = IsADirectoryError \/ e = UnidentifiedImageError ->
       node_at (disk w') (output_dir sd) = Some Dir) /\
    (e = IsADirectoryError \/ e = UnidentifiedImageError \/
     e = FileExistsError \/ e = NotADirectoryError).
Proof.
  intros Hsrc Hn. unfold render_and_manifest.
  destruct (makedirs_from [] (output_dir sd) (disk w)) as [r0 d0] eqn:Emk.
  assert (Hfiles : forall k c, d0 !! k = Some (File c) <-> disk w !! k = Some (File c)).
  { intros k c. split; [apply (makedirs_from_files _ _ _ _ _ Emk) |
                        apply (makedirs_from_keeps _ _ _ _ _ Emk)]. }
  assert (Emk' : os_makedirs (output_dir sd) w = (r0, set_disk w d0))
    by (unfold os_makedirs; rewrite Emk; reflexivity).
  destruct r0 as [[] | e].
  - rewrite (bind_Ret _ _ _ _ _ Emk').
    rewrite !bind_print by reflexivity.
    assert (Hdir : node_at d0 (output_dir sd) = Some Dir).
    { apply (os_makedirs_dir _ _ _ Emk'). }
    unfold bind at 1. unfold Image_open. cbn [say set_disk disk].
    rewrite node_at_lookup by apply source_path_nonempty.
    rewrite (makedirs_from_keeps _ _ _ _ _ Emk _ _ Hsrc).
    destruct n as [| [fmt im | doc indent | bytes]].
    + eexists _, _. split; [reflexivity |]. cbn [say set_disk disk]. auto 6.
    + exfalso. exact (Hn fmt im eq_refl).
    + eexists _, _. split; [reflexivity |]. cbn [say set_disk disk]. auto 6.
    + eexists _, _. split; [reflexivity |]. cbn [say set_disk disk]. auto 6.
  - rewrite (bind_Raise _ _ _ _ _ Emk'). eexists _, _. split; [reflexivity |].
    cbn [set_disk disk]. split; [exact Hfiles |].
    assert (He : e = FileExistsError \/ e = NotADirectoryError).
    { clear -Emk. revert Emk. generalize (@nil string) as above. generalize (disk w) as d.
      induction (output_dir sd) as [| x below IH]; intros d above E; simpl in E.
      - discriminate.
      - destruct (d !! (above ++ [x])) as [[| c0]|]; [eapply IH, E | | eapply IH, E].
        inversion E. destruct below; auto. }
    split; [| tauto].
    intros [-> | ->]; destruct He; discriminate.
Qed.

(** When the source path holds a directory or a file that is no picture,
    [main] ends with an exception and the exit status is 1; no regular file
    is created, changed or removed; and when it is [Image.open] that
    raised, the output directory has already been created. *)
Theorem main_unreadable_source `{Pillow} (script_dir : path) (w : world) (n : node) :
  disk w !! source_path script_dir = Some n ->
  (forall fmt im, n <> File (ImageFile fmt im)) ->
  exists e,
    (main script_dir w).1 = Raise e /\
    (exit_main script_dir w).1 = 1 /\
    (forall k c, disk (main script_dir w).2 !! k = Some (File c) <->
                 disk w !! k = Some (File c)) /\
    (e = IsADirectoryError \/ e = UnidentifiedImageError ->
       node_at (disk (main script_dir w).2) (output_dir script_dir) = Some Dir) /\
    (e = IsADirectoryError \/ e = UnidentifiedImageError \/
     e = FileExistsError \/ e = NotADirectoryError).
Proof.
  intros Hsrc Hn.
  destruct (render_and_manifest_unreadable script_dir w n Hsrc Hn)
    as (e & w' & Hfront & Hfiles & Hdir & He).
  assert (Hmain : main script_dir w = (Raise e, w')).
  { rewrite main_from_source.
    - apply bind_Raise. exact Hfront.
    - rewrite node_at_lookup by apply source_path_nonempty. rewrite Hsrc. discriminate. }
  exists e. unfold exit_main. rewrite Hmain. cbn [fst snd]. auto.
Qed.

Lemma main_unreadable_source_witness :
  disk (machine unreadable_disk (Some packing_tool)) !! source_path sample_dir =
    Some (File (Blob "not a picture")) /\
  (@main nearest_pillow sample_dir (machine unreadable_disk (Some packing_tool))).1 =
    Raise UnidentifiedImageError /\
  exists e,
    (@main nearest_pillow sample_dir (machine unreadable_disk (Some packing_tool))).1 =
      Raise e /\
    (@exit_main nearest_pillow sample_dir (machine unreadable_disk (Some packing_tool))).1 = 1.
Proof.
  assert (Hsrc : disk (machine unreadable_disk (Some packing_tool)) !! source_path sample_dir
                 = Some (File (Blob "not a picture"))) by (vm_compute; reflexivity).
  split; [exact Hsrc |]. split; [vm_compute; reflexivity |].
  destruct (@main_unreadable_source nearest_pillow sample_dir _ _ Hsrc
              ltac:(discriminate)) as (e & He & Hexit & _).
  exists e. split; assumption.
Defined.

(** ** The manifest comes last *)

Lemma render_and_manifest_split `{Pillow} (sd : path) (w : world) :
  render_and_manifest sd w =
    (render_bitmaps sd ;; update_contents_json (output_dir sd)) w.
Proof.
  unfold render_and_manifest, render_bitmaps. symmetry.
  repeat (rewrite bind_assoc; apply bind_ext; intros ? ?).
  reflexivity.
Qed.

Lemma Touches_render_bitmaps `{Pillow} (sd : path) :
  Touches (fun k => k `prefix_of` output_dir sd \/
                    exists row, row ∈ ICON_SIZES /\ k = os_path_join (output_dir sd) [row.2])
          (render_bitmaps sd).
Proof.
  unfold render_bitmaps.
  apply Touches_bind; [| intros _].
  { apply Touches_os_makedirs. intros pre suf Hsplit _. left. exists suf. exact Hsplit. }
  do 6 (apply Touches_bind; [apply Touches_print | intros _]).
  apply Touches_bind; [apply Touches_Image_open | intros source_img].
  do 3 (apply Touches_bind; [apply Touches_print | intros _]).
  apply Touches_for_each. intros [[n s] f] Hrow. apply Touches_create_icon.
  right. exists (n, s, f). split; [exact Hrow | reflexivity].
Qed.

Lemma render_raise_keeps_manifest `{Pillow} (sd : path) (w : world) e w' :
  render_and_manifest sd w = (Raise e, w') ->
  disk w' !! contents_path sd = disk w !! contents_path sd.
Proof.
  rewrite render_and_manifest_split. unfold bind at 1.
  destruct (render_bitmaps sd w) as [[[] | e0] wa] eqn:Ebits; intros E.
  - assert (Hsame : disk wa !! contents_path sd = disk w !! contents_path sd).
    { apply (Touches_render_bitmaps sd w _ _ Ebits). intros [Hp | (row & Hrow & Hp)].
      - apply prefix_length in Hp. unfold contents_path, os_path_join in Hp.
        rewrite length_app in Hp. simpl in Hp. lia.
      - exact (contents_not_bitmap _ row Hrow Hp). }
    unfold update_contents_json, json_dump_to in E. cbv zeta in E. unfold bind in E.
    destruct (write_file _ _ wa) as [[[] | e1] wb] eqn:Ewrite; [inversion E |].
    destruct (write_file_inv _ _ _ _ _ Ewrite) as [(Hr & _) | (e2 & _ & ->)];
      [discriminate |].
    inversion E; subst. exact Hsame.
  - inversion E; subst.
    apply (Touches_render_bitmaps sd w _ _ Ebits). intros [Hp | (row & Hrow & Hp)].
    + apply prefix_length in Hp. unfold contents_path, os_path_join in Hp.
      rewrite length_app in Hp. simpl in Hp. lia.
    + exact (contents_not_bitmap _ row Hrow Hp).
Qed.

(** The manifest is written last: if a run of [main], however it ends,
    leaves at the manifest path something else than was there before, then
    the source was a picture and each of the ten bitmaps is on disk,
    rendered from it. *)
Theorem manifest_only_after_bitmaps `{Pillow} (script_dir : path) (w : world) :
  disk (main script_dir w).2 !! contents_path script_dir <>
    disk w !! contents_path script_dir ->
  exists fmt im,
    disk w !! source_path script_dir = Some (File (ImageFile fmt im)) /\
    forall row, row ∈ ICON_SIZES ->
      disk (main script_dir w).2 !! os_path_join (output_dir script_dir) [row.2] =
        Some (File (ImageFile "PNG" (rendered (prepared im) row.1.1 row.1.2))).
Proof.
  intros Hchanged.
  destruct (decide (node_at (disk w) (source_path script_dir) = None)) as [Hnone | Hsrc].
  { exfalso. apply Hchanged. rewrite (main_source_missing script_dir w Hnone). reflexivity. }
  rewrite (main_from_source script_dir w Hsrc) in *.
  unfold bind at 1. unfold bind at 1 in Hchanged.
  destruct (render_and_manifest script_dir w) as [[[] | e] wf] eqn:Hfront.
  - destruct ((package script_dir ;; copy_to_bundle script_dir ;; farewell) wf)
      as [r w'] eqn:Hback.
    destruct (outputs_after_rendering script_dir w wf r w' Hfront Hback)
      as (fmt & im & Hs & _ & _ & Hfiles & _).
    exists fmt, im. split; [exact Hs | exact Hfiles].
  - exfalso. apply Hchanged. cbn [snd].
    apply (render_raise_keeps_manifest script_dir w e wf Hfront).
Qed.

Lemma manifest_only_after_bitmaps_witness :
  disk (@main nearest_pillow sample_dir (machine bundle_disk None)).2
    !! contents_path sample_dir <>
    disk (machine bundle_disk None) !! contents_path sample_dir /\
  exists fmt im,
    disk (machine bundle_disk None) !! source_path sample_dir =
      Some (File (ImageFile fmt im)) /\
    disk (@main nearest_pillow sample_dir (machine bundle_disk None)).2
      !! os_path_join (output_dir sample_dir) ["icon_512x512@2x.png"] =
      Some (File (ImageFile "PNG" (@rendered nearest_pillow (@prepared nearest_pillow im) 512 2))).
Proof.
  assert (Hchanged : disk (@main nearest_pillow sample_dir (machine bundle_disk None)).2
                       !! contents_path sample_dir <>
                     disk (machine bundle_disk None) !! contents_path sample_dir)
    by (vm_compute; discriminate).
  split; [exact Hchanged |].
  destruct (@manifest_only_after_bitmaps nearest_pillow sample_dir _ Hchanged)
    as (fmt & im & Hsrc & Hfiles).
  exists fmt, im. split; [exact Hsrc |].
  apply (Hfiles (512, 2, "icon_512x512@2x.png")). compute_done.
Defined.

(** ** The copy into the bundle *)

Lemma shutil_copy2_inv (src dst : path) (w w' : world) :
  shutil_copy2 src dst w = (Ret tt, w') ->
  exists c,
    node_at (disk w) src = Some (File c) /\
    let target := match node_at (disk w) dst with
                  | Some Dir => dst ++ [os_path_basename src]
                  | _ => dst
                  end in
    target <> src /\ disk w' = <[target := File c]> (disk w).
Proof.
  unfold shutil_copy2.
  destruct (node_at (disk w) src) as [[| c]|]; try (intros E; discriminate).
  cbv zeta. destruct (decide _) as [| Hne]; [intros E; discriminate |].
  intros E. exists c. split; [reflexivity |]. split; [exact Hne |].
  destruct (write_file_inv _ _ _ _ _ E) as [(_ & -> & _) | (e & He & _)];
    [reflexivity | discriminate].
Qed.

Lemma icns_dir_eq (sd : path) :
  os_path_dirname (icns_path sd) = sd ++ ["OfflineCinema.app"; "Contents"; "Resources"].
Proof.
  unfold os_path_dirname, icns_path, os_path_join.
  change (sd ++ ["OfflineCinema.app"; "Contents"; "Resources"; "AppIcon.icns"])
    with (sd ++ (["OfflineCinema.app"; "Contents"; "Resources"] ++ ["AppIcon.icns"])).
  rewrite app_assoc. apply removelast_last.
Qed.

Lemma bundle_outside_build (sd rest : path) :
  ~ build_footprint sd (sd ++ "OfflineCinema.app" :: rest).
Proof.
  assert (Hdepth : (sd ++ "OfflineCinema.app" :: rest) !! length sd = Some "OfflineCinema.app")
    by (rewrite depth_lookup; reflexivity).
  intros [Hp | [Hp | [Hp | [Hp | [Hp | Hp]]]]].
  - unfold output_dir, os_path_join in Hp. apply prefix_app_inv in Hp as [more Hp].
    discriminate.
  - assert (Hlook : (sd ++ "OfflineCinema.app" :: rest) !! length sd = Some "OfflineCinema").
    { unfold output_files, contents_path, output_dir, os_path_join in Hp.
      apply elem_of_app in Hp as [Hp | Hp].
      - apply list_elem_of_fmap in Hp as (row & -> & _).
        rewrite <- app_assoc, depth_lookup. reflexivity.
      - apply list_elem_of_singleton in Hp as ->.
        rewrite <- app_assoc, depth_lookup. reflexivity. }
    congruence.
  - unfold branding_icns, os_path_join in Hp. apply prefix_app_inv in Hp as [more Hp].
    discriminate.
  - rewrite iconset_of_branding in Hp.
    pose proof (prefix_lookup_Some _ _ _ _ Hdepth Hp) as Hlook.
    rewrite <- (length_fmap (fun c => str_replace c ".icns" ".iconset") sd) in Hlook.
    unfold path_replace in Hlook. rewrite depth_lookup in Hlook. discriminate.
  - rewrite iconset_of_branding in Hp.
    assert (Hb : (path_replace sd ".icns" ".iconset" ++ ["branding"; "AppIcon.iconset"])
                   !! length sd = Some "branding").
    { rewrite <- (length_fmap (fun c => str_replace c ".icns" ".iconset") sd).
      unfold path_replace. rewrite depth_lookup. reflexivity. }
    pose proof (prefix_lookup_Some _ _ _ _ Hb Hp) as Hlook. congruence.
  - unfold branding_icns, os_path_join in Hp. apply app_inv_head in Hp. discriminate.
Qed.

(** After a run with status 0 on a checkout whose bundle had its
    resource directory, and no directory in the place of the bundle's
    container, the container in the bundle is a regular file with the
    very content of [branding/AppIcon.icns]. *)
Theorem bundle_copy_matches_branding `{Pillow} (script_dir : path) (w w' : world) :
  main script_dir w = (Ret 0, w') ->
  node_at (disk w) (os_path_dirname (icns_path script_dir)) <> None ->
  disk w !! icns_path script_dir <> Some Dir ->
  exists c,
    disk w' !! branding_icns script_dir = Some (File c) /\
    disk w' !! icns_path script_dir = Some (File c).
Proof.
  intros E Hdir Hfile.
  destruct (main_inv script_dir w w' (Ret 0) E ltac:(discriminate)) as [Hsrc Hmain].
  rewrite Hmain in E.
  apply bind_inv_Ret in E as ([] & wf & Hfront & E).
  apply bind_inv_Ret in E as (ok & w2 & Hpkg & E).
  apply bind_inv_Ret in E as ([] & w3 & Hcopy & E).
  destruct (farewell_inv _ _ _ E) as [_ Hd4]. rewrite Hd4.
  assert (Hsame : forall rest,
            disk w2 !! (script_dir ++ "OfflineCinema.app" :: rest) =
            disk w !! (script_dir ++ "OfflineCinema.app" :: rest)).
  { intros rest.
    rewrite (Touches_package script_dir wf _ _ Hpkg _ (bundle_outside_build script_dir rest)).
    apply (Touches_render_and_manifest script_dir w _ _ Hfront _
             (bundle_outside_build script_dir rest)). }
  assert (Hdir2 : node_at (disk w2) (os_path_dirname (icns_path script_dir)) <> None).
  { rewrite icns_dir_eq in *.
    rewrite node_at_lookup in * by (destruct script_dir; discriminate).
    rewrite Hsame. exact Hdir. }
  rewrite (copy_to_bundle_copy script_dir w2 Hdir2) in Hcopy.
  apply bind_inv_Ret in Hcopy as ([] & wc & Hcopy & Hprint).
  apply print_inv in Hprint as [_ ->]. cbn [say disk].
  apply shutil_copy2_inv in Hcopy as (c & Hbrand & Htarget & Hdisk).
  assert (Hnot_dir : node_at (disk w2) (icns_path script_dir) <> Some Dir).
  { rewrite node_at_lookup by (unfold icns_path, os_path_join; destruct script_dir; discriminate).
    unfold icns_path, os_path_join. rewrite Hsame. exact Hfile. }
  assert (Ht : match node_at (disk w2) (icns_path script_dir) with
               | Some Dir => icns_path script_dir ++ [os_path_basename (branding_icns script_dir)]
               | _ => icns_path script_dir
               end = icns_path script_dir).
  { destruct (node_at (disk w2) (icns_path script_dir)) as [[|]|];
      [contradiction | reflexivity | reflexivity]. }
  rewrite Ht in Htarget, Hdisk.
  rewrite node_at_lookup in Hbrand
    by (unfold branding_icns, os_path_join; destruct script_dir; discriminate).
  exists c. rewrite Hdisk. split.
  - rewrite lookup_insert_ne by exact Htarget. exact Hbrand.
  - apply lookup_insert_eq.
Qed.

Lemma bundle_copy_matches_branding_witness :
  (@main nearest_pillow sample_dir (machine bundle_disk (Some packing_tool))).1 = Ret 0 /\
  exists c,
    disk (@main nearest_pillow sample_dir (machine bundle_disk (Some packing_tool))).2
      !! branding_icns sample_dir = Some (File c) /\
    disk (@main nearest_pillow sample_dir (machine bundle_disk (Some packing_tool))).2
      !! icns_path sample_dir = Some (File c).
Proof.
  assert (Hret : (@main nearest_pillow sample_dir
                    (machine bundle_disk (Some packing_tool))).1 = Ret 0)
    by (vm_compute; reflexivity).
  split; [exact Hret |].
  apply (@bundle_copy_matches_branding nearest_pillow sample_dir _ _ (pair_eta _ _ Hret)).
  - vm_compute. discriminate.
  - vm_compute. discriminate.
Defined.

(** ** Staging *)

Lemma staging_loop (input_dir iconset_path : path) (l : list (string * string)) (w : world) :
  input_dir <> iconset_path ->
  NoDup (l.*2) ->
  node_at (disk w) iconset_path = Some Dir ->
  (forall names, names ∈ l ->
     disk w !! os_path_join iconset_path [names.2] = None /\
     node_at (disk w) (os_path_join input_dir [names.1]) <> Some Dir) ->
  exists w1,
    for_each l (stage_bitmap input_dir iconset_path) w = (Ret tt, w1) /\
    (forall names, names ∈ l ->
       disk w1 !! os_path_join iconset_path [names.2] =
       disk w !! os_path_join input_dir [names.1]) /\
    (forall k, (forall names, names ∈ l -> k <> os_path_join iconset_path [names.2]) ->
       disk w1 !! k = disk w !! k).
Proof.
  intros Hdirs. revert w.
  induction l as [| [s d] l IH]; intros w Hnd Hset Hpre.
  - exists w. split; [reflexivity |]. split; [intros names Hn; inversion Hn | reflexivity].
  - simpl in Hnd. apply NoDup_cons in Hnd as [Hd Hnd].
    destruct (Hpre (s, d) ltac:(left)) as [Hdst Hsrc]. cbn [fst snd] in Hdst, Hsrc.
    assert (Hfresh : forall names, names ∈ l ->
              os_path_join iconset_path [d] <> os_path_join iconset_path [names.2]).
    { intros names Hn E. unfold os_path_join in E. apply app_inv_head in E.
      injection E as ->. apply Hd. apply list_elem_of_fmap. eauto. }
    assert (Hstep : exists wa,
              stage_bitmap input_dir iconset_path (s, d) w = (Ret tt, wa) /\
              disk wa !! os_path_join iconset_path [d] = disk w !! os_path_join input_dir [s] /\
              (forall k, k <> os_path_join iconset_path [d] -> disk wa !! k = disk w !! k) /\
              (forall k, node_at (disk w) k <> Some Dir -> node_at (disk wa) k <> Some Dir)).
    { unfold stage_bitmap. cbv zeta. rewrite (bind_Ret _ _ _ _ _ (os_path_exists_run _ _)).
      rewrite node_at_lookup in * by apply join_nonempty.
      destruct (disk w !! os_path_join input_dir [s]) as [[| c]|] eqn:Es.
      - contradiction.
      - rewrite bool_decide_eq_true_2 by eauto.
        unfold shutil_copy2. rewrite !node_at_lookup by apply join_nonempty.
        rewrite Es, Hdst. destruct (decide _) as [Heq | Hne]; [congruence |].
        assert (Hw : writable (disk w) (os_path_join iconset_path [d])).
        { split; [rewrite node_at_lookup by apply join_nonempty; rewrite Hdst; discriminate |].
          rewrite dirname_join. exact Hset. }
        rewrite (write_file_ok _ _ _ Hw). eexists. split; [reflexivity |].
        cbn [set_disk disk]. split; [apply lookup_insert_eq |].
        split; [intros k Hk; apply lookup_insert_ne; congruence |].
        intros k Hk. destruct k as [| x k]; [exact Hk |]. cbn [node_at] in *.
        destruct (decide (os_path_join iconset_path [d] = x :: k)) as [-> | Hne'].
        + rewrite lookup_insert_eq. discriminate.
        + rewrite lookup_insert_ne by exact Hne'. exact Hk.
      - rewrite bool_decide_eq_false_2 by (intros [n Hn]; discriminate).
        exists w. split; [reflexivity |]. split; [exact Hdst |]. split; auto. }
    destruct Hstep as (wa & Estep & Hcopy & Hframe & Hnodir).
    destruct (IH wa Hnd) as (w1 & Eloop & Hres & Hrest).
    { destruct iconset_path as [| x p]; [reflexivity |]. cbn [node_at] in *.
      rewrite Hframe; [exact Hset |]. intros E. exact (join_not_parent _ _ (eq_sym E)). }
    { intros names Hn. destruct (Hpre names ltac:(right; exact Hn)) as [Hdst' Hsrc'].
      split; [| apply Hnodir, Hsrc'].
      rewrite Hframe; [exact Hdst' |]. intros E. exact (Hfresh names Hn (eq_sym E)). }
    exists w1. split; [simpl; rewrite (bind_Ret _ _ _ _ _ Estep); exact Eloop |].
    split.
    + intros names Hn. apply elem_of_cons in Hn as [-> | Hn].
      * cbn [fst snd]. rewrite Hrest; [exact Hcopy |]. intros names Hn. apply Hfresh, Hn.
      * rewrite (Hres names Hn). apply Hframe.
        intros E. unfold os_path_join in E. apply app_inj_tail in E as [E _].
        exact (Hdirs E).
    + intros k Hk. rewrite Hrest by (intros names Hn; apply Hk; right; exact Hn).
      apply Hframe. apply (Hk (s, d)). left.
Qed.

(** Staging into an empty staging directory mirrors the input directory:
    when none of the ten bitmap names is a directory there, the loop
    completes, and under each of the ten names of the size table the
    staging directory then holds the file the input directory holds, or
    nothing where the input directory has none. *)
Theorem staging_mirrors_input_dir (input_dir iconset_path : path) (w : world) :
  input_dir <> iconset_path ->
  node_at (disk w) iconset_path = Some Dir ->
  (forall row, row ∈ ICON_SIZES ->
     disk w !! os_path_join iconset_path [row.2] = None /\
     node_at (disk w) (os_path_join input_dir [row.2]) <> Some Dir) ->
  exists w1,
    for_each icon_mapping (stage_bitmap input_dir iconset_path) w = (Ret tt, w1) /\
    (forall row, row ∈ ICON_SIZES ->
       disk w1 !! os_path_join iconset_path [row.2] =
       disk w !! os_path_join input_dir [row.2]) /\
    (forall k, (forall row, row ∈ ICON_SIZES -> k <> os_path_join iconset_path [row.2]) ->
       disk w1 !! k = disk w !! k).
Proof.
  intros Hdirs Hset Hpre.
  assert (Hmap : icon_mapping = (fun row : Z * Z * string => (row.2, row.2)) <$> ICON_SIZES)
    by reflexivity.
  destruct (staging_loop input_dir iconset_path icon_mapping w Hdirs) as (w1 & E & Hres & Hrest).
  - compute_done.
  - exact Hset.
  - intros names Hn. rewrite Hmap in Hn. apply list_elem_of_fmap in Hn as (row & -> & Hrow).
    exact (Hpre row Hrow).
  - exists w1. split; [exact E |]. split.
    + intros row Hrow. apply (Hres (row.2, row.2)). rewrite Hmap.
      apply list_elem_of_fmap. eauto.
    + intros k Hk. apply Hrest. intros names Hn. rewrite Hmap in Hn.
      apply list_elem_of_fmap in Hn as (row & -> & Hrow). exact (Hk row Hrow).
Qed.

Lemma staging_mirrors_input_dir_witness :
  exists w1,
    for_each icon_mapping
      (stage_bitmap (output_dir sample_dir)
         (path_replace (branding_icns sample_dir) ".icns" ".iconset"))
      (machine staging_disk None) = (Ret tt, w1) /\
    disk w1 !! os_path_join (path_replace (branding_icns sample_dir) ".icns" ".iconset")
                 ["icon_16x16.png"] = Some (File (Blob "png 16")) /\
    disk w1 !! os_path_join (path_replace (branding_icns sample_dir) ".icns" ".iconset")
                 ["icon_128x128.png"] = None.
Proof.
  destruct (staging_mirrors_input_dir (output_dir sample_dir)
              (path_replace (branding_icns sample_dir) ".icns" ".iconset")
              (machine staging_disk None)) as (w1 & E & Hres & _).
  - compute_done.
  - vm_compute. reflexivity.
  - intros row Hrow. unfold ICON_SIZES in Hrow.
    repeat (apply elem_of_cons in Hrow as [-> | Hrow];
            [split; vm_compute; [reflexivity | discriminate] |]).
    inversion Hrow.
  - exists w1. split; [exact E |]. split.
    + etransitivity; [exact (Hres (16, 1, "icon_16x16.png") ltac:(compute_done)) |].
      vm_compute. reflexivity.
    + etransitivity; [exact (Hres (128, 1, "icon_128x128.png") ltac:(compute_done)) |].
      vm_compute. reflexivity.
Defined.

(** ** The packager without its tool *)

Lemma Quiet_ret {A} (a : A) : Quiet (ret a).
Proof. intros w r w' E. inversion E. split; reflexivity. Qed.

Lemma Quiet_bind {A B} (m : M A) (k : A -> M B) :
  Quiet m -> (forall a, Quiet (k a)) -> Quiet (bind m k).
Proof.
  intros Hm Hk w r w'. unfold bind.
  destruct (m w) as [[a | e] w1] eqn:E; intros E'.
  - destruct (Hm _ _ _ E) as [Ht Hc]. destruct (Hk a _ _ _ E') as [Ht' Hc'].
    split; congruence.
  - inversion E'; subst. eapply Hm, E.
Qed.

Lemma Quiet_for_each {A} (xs : list A) (body : A -> M unit) :
  (forall x, Quiet (body x)) -> Quiet (for_each xs body).
Proof.
  intros Hb. induction xs as [| x xs IH]; simpl.
  - apply Quiet_ret.
  - apply Quiet_bind; [apply Hb | intros _; exact IH].
Qed.

Lemma Quiet_os_makedirs (p : path) : Quiet (os_makedirs p).
Proof.
  intros w r w'. unfold os_makedirs. destruct (makedirs_from [] p (disk w)).
  intros E. inversion E. split; reflexivity.
Qed.

Lemma Quiet_stage_bitmap (input_dir iconset_path : path) (names : string * string) :
  Quiet (stage_bitmap input_dir iconset_path names).
Proof.
  destruct names as [s d]. unfold stage_bitmap. cbv zeta.
  apply Quiet_bind; [intros w r w' E; inversion E; split; reflexivity | intros found].
  destruct found; [| apply Quiet_ret].
  intros w r w'. unfold shutil_copy2.
  destruct (node_at (disk w) _) as [[| c]|]; try (intros E; inversion E; split; reflexivity).
  destruct (decide _); [intros E; inversion E; split; reflexivity |].
  intros E. destruct (write_file_inv _ _ _ _ _ E) as [(_ & -> & _) | (e & _ & ->)];
    split; reflexivity.
Qed.

(** On a machine without [iconutil], [generate_icns] returns [False]
    and prints the one line [Error generating .icns: <exception>]; outside
    the staging directory, the directories above it and all below it the
    disk stays as it was, so a container that an earlier run left at the
    output path is still there. *)
Theorem generate_icns_without_iconutil (input_dir output_path : path) (w : world) :
  iconutil w = None ->
  let iconset_path := path_replace output_path ".icns" ".iconset" in
  exists e w',
    generate_icns input_dir output_path w = (Ret false, w') /\
    console w' = console w ++ [[Str "Error generating .icns: "; Exc e]] /\
    (forall k, ~ k `prefix_of` iconset_path -> ~ iconset_path `prefix_of` k ->
       disk w' !! k = disk w !! k).
Proof.
  intros Htool iconset_path.
  set (staging := os_makedirs iconset_path ;;
                  for_each icon_mapping (stage_bitmap input_dir iconset_path)).
  assert (HQ : Quiet staging).
  { apply Quiet_bind; [apply Quiet_os_makedirs | intros _].
    apply Quiet_for_each. apply Quiet_stage_bitmap. }
  assert (HT : Touches (fun k => k `prefix_of` iconset_path \/ iconset_path `prefix_of` k)
                 staging).
  { apply Touches_bind; [| intros _].
    - apply Touches_os_makedirs. intros pre suf Hsplit _. left. exists suf. exact Hsplit.
    - apply Touches_for_each. intros names _.
      apply (Touches_stage_bitmap _ input_dir iconset_path names).
      intros k Hk. right. etransitivity; [| exact Hk]. apply prefix_app_r. reflexivity. }
  assert (Hstage : exists e w1,
            stage_and_run input_dir output_path w = (Raise e, w1) /\
            console w1 = console w /\
            forall k, ~ k `prefix_of` iconset_path -> ~ iconset_path `prefix_of` k ->
                      disk w1 !! k = disk w !! k).
  { assert (Hsplit : stage_and_run input_dir output_path w =
                       bind staging (fun _ => subprocess_run
                         [Str "iconutil"; Str "-c"; Str "icns"; Path iconset_path;
                          Str "-o"; Path output_path]) w).
    { unfold stage_and_run, staging. cbv zeta. fold iconset_path.
      rewrite bind_assoc. reflexivity. }
    rewrite Hsplit. unfold bind at 1.
    destruct (staging w) as [[[] | e] wa] eqn:Es;
      destruct (HQ _ _ _ Es) as [Hta Hca]; pose proof (HT _ _ _ Es) as Hda.
    - exists FileNotFoundError, wa. unfold subprocess_run. rewrite Hta, Htool.
      split; [reflexivity |]. split; [exact Hca |].
      intros k H1 H2. apply Hda. tauto.
    - exists e, wa. split; [reflexivity |]. split; [exact Hca |].
      intros k H1 H2. apply Hda. tauto. }
  destruct Hstage as (e & w1 & Estage & Hcons & Hdisk).
  exists e, (say w1 [Str "Error generating .icns: "; Exc e]).
  split.
  - rewrite generate_icns_unfold. unfold try_except.
    rewrite (bind_Raise _ _ _ _ _ Estage). reflexivity.
  - cbn [say console disk]. rewrite Hcons. split; [reflexivity | exact Hdisk].
Qed.

Lemma generate_icns_without_iconutil_witness :
  iconutil (machine stale_disk None) = None /\
  exists e w',
    generate_icns (output_dir sample_dir) (branding_icns sample_dir)
      (machine stale_disk None) = (Ret false, w') /\
    console w' = [[Str "Error generating .icns: "; Exc e]] /\
    disk w' !! branding_icns sample_dir = Some (File (Blob "earlier run")).
Proof.
  split; [reflexivity |].
  destruct (generate_icns_without_iconutil (output_dir sample_dir) (branding_icns sample_dir)
              (machine stale_disk None) eq_refl) as (e & w' & E & Hcons & Hdisk).
  exists e, w'. split; [exact E |]. split; [exact Hcons |].
  rewrite Hdisk; [vm_compute; reflexivity | compute_done | compute_done].
Defined.

(** ** A bitmap that cannot be written *)

Lemma for_each_app {A} (xs ys : list A) (body : A -> M unit) (w : world) :
  for_each (xs ++ ys) body w = bind (for_each xs body) (fun _ => for_each ys body) w.
Proof.
  revert w. induction xs as [| x xs IH]; intros w; simpl.
  - reflexivity.
  - rewrite bind_assoc. apply bind_ext. intros [] w1. apply IH.
Qed.

(** The rendering loop does not clean up: when the path of one bitmap is
    a directory, the loop raises [IsADirectoryError] there; the bitmaps of
    the rows before it are on disk, and the paths of the rows after it are
    as they were. *)
Theorem render_stops_at_directory `{Pillow} (source_img : image) (out : path)
    (done : list (Z * Z * string)) (row : Z * Z * string) (rest : list (Z * Z * string))
    (w : world) :
  NoDup ((done ++ row :: rest).*2) ->
  node_at (disk w) out = Some Dir ->
  (forall r, r ∈ done -> node_at (disk w) (os_path_join out [r.2]) <> Some Dir) ->
  disk w !! os_path_join out [row.2] = Some Dir ->
  exists w',
    for_each (done ++ row :: rest) (fun '(size_, scale, filename) =>
      create_icon source_img (os_path_join out [filename]) size_ scale) w
      = (Raise IsADirectoryError, w') /\
    (forall r, r ∈ done ->
       disk w' !! os_path_join out [r.2] =
         Some (File (ImageFile "PNG" (rendered source_img r.1.1 r.1.2)))) /\
    (forall r, r ∈ row :: rest ->
       disk w' !! os_path_join out [r.2] = disk w !! os_path_join out [r.2]).
Proof.
  intros Hnd Hout Hdone Hrow.
  rewrite fmap_app in Hnd. apply NoDup_app in Hnd as (Hnd1 & Hdisj & Hnd2).
  destruct (render_loop_total source_img out done w Hout Hdone) as [wa Ea].
  destruct (render_loop_inv source_img out done w wa Hnd1 Ea) as [Hfiles Hframe].
  assert (Hlater : forall r, r ∈ row :: rest ->
            disk wa !! os_path_join out [r.2] = disk w !! os_path_join out [r.2]).
  { intros r Hr. apply Hframe. intros r' Hr' E.
    unfold os_path_join in E. apply app_inv_head in E. injection E as E.
    apply (Hdisj r'.2).
    - apply list_elem_of_fmap. eauto.
    - rewrite <- E. apply list_elem_of_fmap. eauto. }
  exists wa. split; [| split; [exact Hfiles | exact Hlater]].
  rewrite for_each_app, (bind_Ret _ _ _ _ _ Ea).
  destruct row as [[n s] f]. simpl. unfold bind at 1.
  rewrite create_icon_unfold. unfold bind at 1, save, write_file.
  rewrite node_at_lookup by apply join_nonempty.
  pose proof (Hlater (n, s, f) ltac:(left)) as Hl. cbn [snd] in Hl, Hrow.
  rewrite Hl, Hrow. reflexivity.
Qed.

Lemma render_stops_at_directory_witness :
  exists w',
    for_each ICON_SIZES (fun '(size_, scale, filename) =>
      @create_icon nearest_pillow sample_picture_alpha
        (os_path_join (output_dir sample_dir) [filename]) size_ scale)
      (machine blocked_disk None) = (Raise IsADirectoryError, w') /\
    disk w' !! os_path_join (output_dir sample_dir) ["icon_16x16@2x.png"] =
      Some (File (ImageFile "PNG" (@rendered nearest_pillow sample_picture_alpha 16 2))) /\
    disk w' !! os_path_join (output_dir sample_dir) ["icon_32x32@2x.png"] = None.
Proof.
  destruct (@render_stops_at_directory nearest_pillow sample_picture_alpha
              (output_dir sample_dir)
              [(16, 1, "icon_16x16.png"); (16, 2, "icon_16x16@2x.png")]
              (32, 1, "icon_32x32.png")
              [(32, 2, "icon_32x32@2x.png"); (128, 1, "icon_128x128.png");
               (128, 2, "icon_128x128@2x.png"); (256, 1, "icon_256x256.png");
               (256, 2, "icon_256x256@2x.png"); (512, 1, "icon_512x512.png");
               (512, 2, "icon_512x512@2x.png")]
              (machine blocked_disk None)) as (w' & E & Hdone & Hrest).
  - compute_done.
  - vm_compute. reflexivity.
  - intros r Hr. repeat (apply elem_of_cons in Hr as [-> | Hr];
                         [vm_compute; discriminate |]). inversion Hr.
  - vm_compute. reflexivity.
  - exists w'. split; [exact E |]. split.
    + exact (Hdone (16, 2, "icon_16x16@2x.png") ltac:(compute_done)).
    + etransitivity; [exact (Hrest (32, 2, "icon_32x32@2x.png") ltac:(compute_done)) |].
      vm_compute. reflexivity.
Defined.

(** ** Where the staging directory is *)

(** [output_path.replace(".icns", ".iconset")] rewrites the whole path,
    not only the extension of the container.  For the path [main] passes,
    the staging directory is [branding/AppIcon.iconset] below the script
    directory with every [.icns] in its components rewritten too: it is
    next to the container when no component changes, and outside
    [branding/] of the script directory as soon as one does. *)
Theorem staging_path_follows_replace (script_dir : path) :
  let iconset_path := path_replace (branding_icns script_dir) ".icns" ".iconset" in
  iconset_path =
    path_replace script_dir ".icns" ".iconset" ++ ["branding"; "AppIcon.iconset"] /\
  (path_replace script_dir ".icns" ".iconset" = script_dir ->
     os_path_dirname iconset_path = os_path_dirname (branding_icns script_dir)) /\
  (path_replace script_dir ".icns" ".iconset" <> script_dir ->
     ~ os_path_dirname (branding_icns script_dir) `prefix_of` iconset_path).
Proof.
  cbv zeta. rewrite iconset_of_branding.
  assert (Hdir : forall (p : path) (a b : string),
            os_path_dirname (p ++ [a; b]) = p ++ [a]).
  { intros p a b. unfold os_path_dirname.
    change (p ++ [a; b]) with (p ++ ([a] ++ [b])). rewrite app_assoc.
    apply removelast_last. }
  split; [reflexivity |]. split.
  - intros ->. unfold branding_icns, os_path_join. rewrite !Hdir. reflexivity.
  - intros Hne Hpre. unfold branding_icns, os_path_join in Hpre. rewrite Hdir in Hpre.
    destruct Hpre as [more Hpre].
    change (path_replace script_dir ".icns" ".iconset" ++ ["branding"; "AppIcon.iconset"])
      with (path_replace script_dir ".icns" ".iconset" ++ (["branding"] ++ ["AppIcon.iconset"]))
      in Hpre.
    rewrite app_assoc in Hpre. apply app_inj_1 in Hpre as [Hpre _].
    + apply app_inj_tail in Hpre as [Hpre _]. exact (Hne Hpre).
    + rewrite !length_app. unfold path_replace. rewrite length_fmap. reflexivity.
Qed.

Lemma staging_path_follows_replace_witness :
  path_replace ["Users"; "dev"; "icons.icns"] ".icns" ".iconset" <>
    ["Users"; "dev"; "icons.icns"] /\
  path_replace (branding_icns ["Users"; "dev"; "icons.icns"]) ".icns" ".iconset" =
    ["Users"; "dev"; "icons.iconset"; "branding"; "AppIcon.iconset"] /\
  ~ os_path_dirname (branding_icns ["Users"; "dev"; "icons.icns"])
      `prefix_of` path_replace (branding_icns ["Users"; "dev"; "icons.icns"])
                    ".icns" ".iconset".
Proof.
  assert (Hne : path_replace ["Users"; "dev"; "icons.icns"] ".icns" ".iconset" <>
                ["Users"; "dev"; "icons.icns"]) by compute_done.
  split; [exact Hne |]. split; [reflexivity |].
  exact (proj2 (proj2 (staging_path_follows_replace ["Users"; "dev"; "icons.icns"])) Hne).
Defined.
